(** * White-Rabbit calibration: a shallow embedding of [wrcalibration.py]

    The development models class [WR_calibration] of
    [src/calibration/wrcalibration.py]: the calibration record and its text
    format ([read_config], [write_config]), the fibre-asymmetry estimator
    ([fiber_asymmetry]), the port-delay calibrator ([calibrate_device_port])
    and the handling of the class-level attributes ([__init__],
    [add_wr_device], [remove_wr_devices], [add_meas_instr]).

    Modelling conventions.
    - Python numbers (int and float alike) are rationals [Q]: arithmetic is
      exact, so rounding of IEEE doubles, infinities and NaN are outside the
      model.  A division by zero raises [ZeroDivisionError] as in Python.
    - Python strings are [string]; a [dict] is an association list kept in
      insertion order, which is the order [write_config] iterates in.
    - A method is a function from the [world] to an [outcome]: a normal
      return, a raised exception (both with the world as it stands then), or
      [Blocked] when the scripted environment has no further answer (the
      procedure is still waiting, in the world reached so far).
    - Device, instrument and operator interaction is recorded in [trace];
      the answers of the devices and of the instrument come from scripts
      held in the world.  Console output ([print], the [show_dbg] flag) is
      not modelled. *)

From Stdlib Require Import ZArith QArith Qabs List String Ascii Bool Lia.
From Stdlib Require Import DecimalString DecimalZ DecimalN DecimalPos.
Import ListNotations.

Local Open Scope string_scope.
Local Open Scope list_scope.

(* ================================================================== *)
(** * Python values *)
(* ================================================================== *)

(** ** Exceptions

    The first six are the classes of [main.wrcexceptions] named by the
    source; [FiberAsymmetryNeeded] is documented by
    [calibrate_device_port] but no [raise] statement uses it.  The rest are
    the Python built-ins the modelled statements can raise. *)
Inductive exn : Type :=
| DeviceNotFound
| WRDeviceNeeded
| MeasurementInstrumentNeeded
| FiberLatencyNeeded
| FiberAsymmetryNeeded
| MeasuringError
| IndexError
| ValueError
| ZeroDivisionError
| KeyError
| UnboundLocalError
| FileNotFoundError.


(** ** Dictionaries with string keys, in insertion order *)
Definition dict (V : Type) : Type := list (string * V).

Fixpoint dict_get {V : Type} (d : dict V) (k : string) : option V :=
  match d with
  | [] => None
  | (k', v) :: r => if String.eqb k' k then Some v else dict_get r k
  end.

(** [d[k] = v]: an existing key keeps its position, a new key goes last. *)
Fixpoint dict_set {V : Type} (d : dict V) (k : string) (v : V) : dict V :=
  match d with
  | [] => [(k, v)]
  | (k', v') :: r =>
      if String.eqb k' k then (k', v) :: r else (k', v') :: dict_set r k v
  end.

(** [k in d]. *)
Definition dict_mem {V : Type} (d : dict V) (k : string) : bool :=
  match dict_get d k with Some _ => true | None => false end.

Definition dict_keys {V : Type} (d : dict V) : list string := map fst d.

(** ** Numeric literals of the source *)
Definition lit_1e_6 : Q := 1 # 1000000.
Definition lit_1e12 : Q := 1000000000000 # 1.
Definition lit_1e10 : Q := 10000000000 # 1.
Definition lit_0_5 : Q := 1 # 2.
Definition pow_2_40 : Q := inject_Z (2 ^ 40).

(** [a > b] on Python numbers. *)
Definition Qgt_bool (a b : Q) : bool := negb (Qle_bool a b).

(* ================================================================== *)
(** * The calibration record and the session objects *)
(* ================================================================== *)

(** [cfg_dict]: the blocks ['fiber-latency'] (keys ['delta1'], ['delta2']),
    ['fiber-asymmetry'] and ['port-delay'].  Every method runs on a
    constructed instance, so [__init__] has created the three blocks. *)
Record cfg : Type := mkCfg {
  cfg_delta1 : Q;
  cfg_delta2 : Q;
  cfg_fiber_asymmetry : dict Q;
  cfg_port_delay : dict (Q * Q)
}.

(** A WR device controller: the class loaded from [wr_devices] and the two
    constructor arguments [device_params[0]], [device_params[1]]. *)
Record device : Type := mkDevice {
  dev_class : string;
  dev_interface : string;
  dev_port : string
}.

(** A measurement instrument: its class and [device_params[0]]. *)
Record instrument : Type := mkInstrument {
  instr_class : string;
  instr_port : string
}.

(** What [get_phy_delays] returns: for master and slave the pair
    (tx delay, bitslide). *)
Record phy_delays : Type := mkPhy {
  phy_master : Q * Q;
  phy_slave : Q * Q
}.

(** The instance [__dict__]: attributes an instance has bound by assignment
    through [self].  [None] means the lookup falls through to the class
    attribute.  [self.devices = []] in [remove_wr_devices] binds
    [own_devices]; [self.instr = ...] in [add_meas_instr] binds
    [own_instr] (the class attribute [instr] stays [None]). *)
Record instance : Type := mkInstance {
  own_devices : option (list device);
  own_instr : option instrument
}.

(** Commands issued to devices, instrument, clock and operator. *)
Inductive event : Type :=
| EvEraseSfp (d : device)
| EvWriteSfp (d : device) (sn : string) (port : Z) (delays : option (Q * Q * Q))
| EvLoadSfp (d : device)
| EvSetSlaveport (d : device) (port : Z)
| EvSetMaster (d : device)
| EvInTrackphase (d : device) (answer : bool)
| EvGetRtt (d : device) (answer : Q)
| EvGetPhyDelays (d : device) (answer : phy_delays)
| EvClose (d : device)
| EvMeanTimeInterval (i : instrument) (n_samples t_samples : Z) (answer : Q)
| EvSleep (seconds : Z)
| EvInput.

(** [datetime.datetime.now()], as far as [write_config] formats it. *)
Record datetime : Type := mkDatetime {
  dt_hour : nat; dt_minute : nat; dt_year : nat; dt_month : nat; dt_day : nat
}.

(** The world: the objects shared at class level ([WR_calibration.cfg_dict],
    [WR_calibration.devices]), the file system, the importable modules, the
    commands issued so far and the scripted answers of the environment. *)
Record world : Type := mkWorld {
  cfg_dict : cfg;
  cls_devices : list device;
  fs : dict string;
  clock : datetime;
  wr_modules : dict string;       (* module name -> its [__wrdevice__] *)
  meas_modules : dict string;     (* module name -> its [__meas_instr__] *)
  trace : list event;
  track_script : list bool;       (* answers of [in_trackphase] *)
  rtt_script : list Q;            (* answers of [get_rtt] *)
  phy_script : list phy_delays;   (* answers of [get_phy_delays] *)
  skew_script : list Q            (* answers of [mean_time_interval] *)
}.

Definition set_cfg (c : cfg) (w : world) : world :=
  mkWorld c (cls_devices w) (fs w) (clock w) (wr_modules w) (meas_modules w)
          (trace w) (track_script w) (rtt_script w) (phy_script w) (skew_script w).

Definition set_cls_devices (l : list device) (w : world) : world :=
  mkWorld (cfg_dict w) l (fs w) (clock w) (wr_modules w) (meas_modules w)
          (trace w) (track_script w) (rtt_script w) (phy_script w) (skew_script w).

Definition set_fs (f : dict string) (w : world) : world :=
  mkWorld (cfg_dict w) (cls_devices w) f (clock w) (wr_modules w) (meas_modules w)
          (trace w) (track_script w) (rtt_script w) (phy_script w) (skew_script w).

Definition emit (e : event) (w : world) : world :=
  mkWorld (cfg_dict w) (cls_devices w) (fs w) (clock w) (wr_modules w) (meas_modules w)
          (trace w ++ [e]) (track_script w) (rtt_script w) (phy_script w) (skew_script w).

Definition set_track_script (l : list bool) (w : world) : world :=
  mkWorld (cfg_dict w) (cls_devices w) (fs w) (clock w) (wr_modules w) (meas_modules w)
          (trace w) l (rtt_script w) (phy_script w) (skew_script w).

Definition set_rtt_script (l : list Q) (w : world) : world :=
  mkWorld (cfg_dict w) (cls_devices w) (fs w) (clock w) (wr_modules w) (meas_modules w)
          (trace w) (track_script w) l (phy_script w) (skew_script w).

Definition set_phy_script (l : list phy_delays) (w : world) : world :=
  mkWorld (cfg_dict w) (cls_devices w) (fs w) (clock w) (wr_modules w) (meas_modules w)
          (trace w) (track_script w) (rtt_script w) l (skew_script w).

Definition set_skew_script (l : list Q) (w : world) : world :=
  mkWorld (cfg_dict w) (cls_devices w) (fs w) (clock w) (wr_modules w) (meas_modules w)
          (trace w) (track_script w) (rtt_script w) (phy_script w) l.

(* ================================================================== *)
(** * The monad of methods *)
(* ================================================================== *)

Inductive outcome (A : Type) : Type :=
| Ret (a : A) (w : world)
| Raise (e : exn) (w : world)
| Blocked (w : world).

Arguments Ret {A} a w.
Arguments Raise {A} e w.
Arguments Blocked {A} w.

Definition world_of {A : Type} (o : outcome A) : world :=
  match o with
  | Ret _ w => w
  | Raise _ w => w
  | Blocked w => w
  end.

Definition M (A : Type) : Type := world -> outcome A.

Definition ret {A : Type} (a : A) : M A := fun w => Ret a w.

Definition raise {A : Type} (e : exn) : M A := fun w => Raise e w.

Definition bind {A B : Type} (m : M A) (k : A -> M B) : M B :=
  fun w =>
    match m w with
    | Ret a w' => k a w'
    | Raise e w' => Raise e w'
    | Blocked w' => Blocked w'
    end.

Declare Scope py_scope.
Delimit Scope py_scope with py.
Notation "x <- m ;; k" := (bind m (fun x => k))
  (at level 61, m at next level, right associativity) : py_scope.
Notation "m ;; k" := (bind m (fun _ => k))
  (at level 61, right associativity) : py_scope.
Local Open Scope py_scope.

Definition get_cfg : M cfg := fun w => Ret (cfg_dict w) w.

Definition put_cfg (c : cfg) : M unit := fun w => Ret tt (set_cfg c w).

Definition do (e : event) : M unit := fun w => Ret tt (emit e w).

(** [l[n]]. *)
Definition index {A : Type} (l : list A) (n : nat) : M A :=
  match nth_error l n with
  | Some a => ret a
  | None => raise IndexError
  end.

(** [d[k]] as an expression. *)
Definition lookup {V : Type} (d : dict V) (k : string) : M V :=
  match dict_get d k with
  | Some v => ret v
  | None => raise KeyError
  end.

(** [a / b] on Python numbers. *)
Definition pydiv (a b : Q) : M Q :=
  if Qeq_bool b 0 then raise ZeroDivisionError else ret (a / b)%Q.

(* ================================================================== *)
(** * Devices, instrument, clock, operator *)
(* ================================================================== *)

Definition erase_sfp_config (d : device) : M unit := do (EvEraseSfp d).

(** [d.write_sfp_config(sn, port)] and
    [d.write_sfp_config(sn, port, dtx, drx, beta)]. *)
Definition write_sfp_config (d : device) (sn : string) (port : Z)
    (delays : option (Q * Q * Q)) : M unit :=
  do (EvWriteSfp d sn port delays).

Definition load_sfp_config (d : device) : M unit := do (EvLoadSfp d).
Definition set_slaveport (d : device) (port : Z) : M unit := do (EvSetSlaveport d port).
Definition set_master (d : device) : M unit := do (EvSetMaster d).
Definition close (d : device) : M unit := do (EvClose d).
Definition sleep (seconds : Z) : M unit := do (EvSleep seconds).
Definition input : M unit := do EvInput.

Definition in_trackphase (d : device) : M bool :=
  fun w =>
    match track_script w with
    | [] => Blocked w
    | a :: r => Ret a (set_track_script r (emit (EvInTrackphase d a) w))
    end.

Definition get_rtt (d : device) : M Q :=
  fun w =>
    match rtt_script w with
    | [] => Blocked w
    | a :: r => Ret a (set_rtt_script r (emit (EvGetRtt d a) w))
    end.

Definition get_phy_delays (d : device) : M phy_delays :=
  fun w =>
    match phy_script w with
    | [] => Blocked w
    | a :: r => Ret a (set_phy_script r (emit (EvGetPhyDelays d a) w))
    end.

Definition mean_time_interval (i : instrument) (n_samples t_samples : Z) : M Q :=
  fun w =>
    match skew_script w with
    | [] => Blocked w
    | a :: r =>
        Ret a (set_skew_script r (emit (EvMeanTimeInterval i n_samples t_samples a) w))
    end.

(** [while not slave.in_trackphase() : time.sleep(2)].  The loop has no
    bound in the source; here it polls until the script answers [True] and
    is [Blocked] when the script ends first. *)
Fixpoint while_not_trackphase (polls : nat) (slave : device) : M unit :=
  match polls with
  | O => fun w => Blocked w
  | S polls' =>
      locked <- in_trackphase slave ;;
      if locked : bool then ret tt
      else sleep 2 ;; while_not_trackphase polls' slave
  end.

Definition wait_trackphase (slave : device) : M unit :=
  fun w => while_not_trackphase (S (List.length (track_script w))) slave w.

(** [mean_rtt = 0; for i in range(n_samples): mean_rtt += slave.get_rtt();
    time.sleep(t_samples)]. *)
Fixpoint sample_rtt (n : nat) (t_samples : Z) (slave : device) (mean_rtt : Q) : M Q :=
  match n with
  | O => ret mean_rtt
  | S n' =>
      rtt <- get_rtt slave ;;
      sleep t_samples ;;
      sample_rtt n' t_samples slave (mean_rtt + rtt)%Q
  end.

(* ================================================================== *)
(** * Attribute lookup and session management *)
(* ================================================================== *)

(** [self.devices]: the instance attribute if bound, else the class one. *)
Definition devices_of (self : instance) (w : world) : list device :=
  match own_devices self with
  | Some l => l
  | None => cls_devices w
  end.

(** [self.instr]: the class attribute is [None] and never assigned. *)
Definition instr_of (self : instance) : option instrument := own_instr self.

Definition empty_cfg : cfg := mkCfg 0 0 [] [].

(** [WR_calibration()]: a new instance with an empty [__dict__]; the
    constructor body assigns into the class-level [cfg_dict]. *)
Definition init : M instance :=
  put_cfg empty_cfg ;;
  ret (mkInstance None None).

(** [self.devices.append(x)]: mutates the list object [self.devices]
    resolves to. *)
Definition devices_append (self : instance) (x : device) : M instance :=
  fun w =>
    match own_devices self with
    | Some l => Ret (mkInstance (Some (l ++ [x])) (own_instr self)) w
    | None => Ret self (set_cls_devices (cls_devices w ++ [x]) w)
    end.

Definition add_wr_device (self : instance) (name : string)
    (device_params : list string) : M instance :=
  fun w =>
    match dict_get (wr_modules w) ("wr_devices." ++ name)%string with
    | None => Raise DeviceNotFound w
    | Some class_ =>
        (p0 <- index device_params 0 ;;
         p1 <- index device_params 1 ;;
         devices_append self (mkDevice class_ p0 p1)) w
    end.

Fixpoint close_all (l : list device) : M unit :=
  match l with
  | [] => ret tt
  | d :: r => close d ;; close_all r
  end.

Definition remove_wr_devices (self : instance) : M instance :=
  fun w =>
    (close_all (devices_of self w) ;;
     ret (mkInstance (Some []) (own_instr self))) w.


(* ================================================================== *)
(** * The estimators *)
(* ================================================================== *)

(** ["%d" % z] for an int. *)
Definition format_int (z : Z) : string := NilZero.string_of_int (Z.to_int z).

(** ["%s-wr%d" % (sfp, port)]. *)
Definition format_key (sfp : string) (port : Z) : string :=
  (sfp ++ "-wr" ++ format_int port)%string.

(** The class attribute [fibers]. *)
Definition fibers : list string := ["f1"; "f2"; "f1+f2"].

Definition AXGE_1254 : string := "AXGE-1254-0531".
Definition AXGE_3454 : string := "AXGE-3454-0531".

(** ** [fiber_asymmetry] *)

(** The sign convention of line 472: the raw skew is negated for a blue
    SFP and taken as measured otherwise. *)
Definition signed_skew (sfp : string) (raw : Q) : Q :=
  if (sfp =? "blue")%string then (raw * -1)%Q else raw.

(** One pass of the loop over [self.fibers] (lines 455-476). *)
Definition measure_fiber (instr : instrument) (slave : device)
    (n_samples t_samples : Z) (sfp : string) (skew : list Q) : M (list Q) :=
  input ;;
  input ;;
  sleep 1 ;;
  wait_trackphase slave ;;
  mean_skew <- mean_time_interval instr n_samples t_samples ;;
  let mean_skew := signed_skew sfp mean_skew in
  if Qle_bool lit_1e_6 mean_skew then raise MeasuringError
  else ret (skew ++ [mean_skew]).

(** [for fiber in self.fibers], with its [continue] on ['f1+f2']. *)
Fixpoint for_fibers (l : list string) (instr : instrument) (slave : device)
    (n_samples t_samples : Z) (sfp : string) (skew : list Q) : M (list Q) :=
  match l with
  | [] => ret skew
  | fiber :: rest =>
      if (fiber =? "f1+f2")%string
      then for_fibers rest instr slave n_samples t_samples sfp skew
      else
        skew' <- measure_fiber instr slave n_samples t_samples sfp skew ;;
        for_fibers rest instr slave n_samples t_samples sfp skew'
  end.

(** Lines 480-494: from the two skews (in seconds) to the stored
    coefficient. *)
Definition derive_alpha_n (sfp : string) (port : Z) (skew : list Q) : M unit :=
  s0 <- index skew 0 ;;
  s1 <- index skew 1 ;;
  let skew0 := (s0 * lit_1e12)%Q in
  let skew1 := (s1 * lit_1e12)%Q in
  let dif := (skew1 - skew0)%Q in
  c <- get_cfg ;;
  let delta_2 := cfg_delta2 c in
  alpha <- pydiv (2 * dif)%Q (lit_0_5 * delta_2 - dif)%Q ;;
  quot <- pydiv (alpha + 1)%Q (alpha + 2)%Q ;;
  let alpha_n := (pow_2_40 * (quot - lit_0_5))%Q in
  let alpha_n := if (sfp =? "violet")%string then (alpha_n * -1)%Q else alpha_n in
  c <- get_cfg ;;
  put_cfg (mkCfg (cfg_delta1 c) (cfg_delta2 c)
                 (dict_set (cfg_fiber_asymmetry c) (format_key sfp port) alpha_n)
                 (cfg_port_delay c)).

Definition fiber_asymmetry (self : instance) (n_samples t_samples : Z)
    (port : Z) (sfp : string) : M unit :=
  fun w =>
    if (List.length (devices_of self w) <? 2)%nat then Raise WRDeviceNeeded w
    else
      match instr_of self with
      | None => Raise MeasurementInstrumentNeeded w
      | Some instr =>
          if Qeq_bool (cfg_delta1 (cfg_dict w)) 0 then Raise FiberLatencyNeeded w
          else
            (master <- index (devices_of self w) 0 ;;
             slave <- index (devices_of self w) 1 ;;
             erase_sfp_config master ;;
             erase_sfp_config slave ;;
             let sfp_sn1 := if (sfp =? "blue")%string then AXGE_1254 else AXGE_3454 in
             let sfp_sn2 := if (sfp =? "blue")%string then AXGE_3454 else AXGE_1254 in
             write_sfp_config slave sfp_sn1 port None ;;
             write_sfp_config master sfp_sn2 port None ;;
             load_sfp_config master ;;
             load_sfp_config slave ;;
             set_slaveport slave port ;;
             set_master master ;;
             skew <- for_fibers fibers instr slave n_samples t_samples sfp [] ;;
             derive_alpha_n sfp port skew) w
      end.

(** ** [calibrate_device_port] *)

(** What the coarse stage (lines 542-595) hands to the refinement loop. *)
Record coarse : Type := mkCoarse {
  c_slave : device;
  c_instr : instrument;
  c_sfp_sn : string;
  c_key : string;
  c_beta : Q;
  coarse_delays : Q
}.

(** Lines 529-595: the precondition checks and the coarse stage. *)
Definition coarse_stage (self : instance) (n_samples t_samples : Z)
    (port : Z) (sfp : string) : M coarse :=
  fun w =>
    if (List.length (devices_of self w) <? 1)%nat then Raise WRDeviceNeeded w
    else
      match instr_of self with
      | None => Raise MeasurementInstrumentNeeded w
      | Some instr =>
          if Qeq_bool (cfg_delta1 (cfg_dict w)) 0 then Raise FiberLatencyNeeded w
          else
            let key := format_key sfp port in
            if negb (dict_mem (cfg_fiber_asymmetry (cfg_dict w)) key)
            then Raise FiberLatencyNeeded w
            else
              (slave <- index (devices_of self w) 0 ;;
               erase_sfp_config slave ;;
               let sfp_sn := if (sfp =? "blue")%string then AXGE_1254 else AXGE_3454 in
               let key := format_key sfp port in
               c <- get_cfg ;;
               beta <- lookup (cfg_fiber_asymmetry c) key ;;
               write_sfp_config slave sfp_sn port (Some (0, 0, beta)) ;;
               load_sfp_config slave ;;
               set_slaveport slave port ;;
               input ;;
               wait_trackphase slave ;;
               mean_rtt <- sample_rtt (Z.to_nat n_samples) t_samples slave 0 ;;
               mean_rtt <- pydiv mean_rtt (inject_Z n_samples) ;;
               delays_dict <- get_phy_delays slave ;;
               let dtxm := fst (phy_master delays_dict) in
               let drxm := snd (phy_master delays_dict) in
               let bitslide := snd (phy_slave delays_dict) in
               c <- get_cfg ;;
               let delta1 := cfg_delta1 c in
               let coarse_delays :=
                 (lit_0_5 * (mean_rtt - dtxm - drxm - bitslide - delta1))%Q in
               erase_sfp_config slave ;;
               write_sfp_config slave sfp_sn port
                 (Some (coarse_delays, coarse_delays, beta)) ;;
               load_sfp_config slave ;;
               ret (mkCoarse slave instr sfp_sn key beta coarse_delays)) w
      end.

(** The local variables of the refinement loop; [dtxs] and [drxs] are
    unbound until the loop body assigns them. *)
Record locals : Type := mkLocals {
  l_i : nat;
  l_mean_skew : Q;
  l_old_dtxs : Q;
  l_old_drxs : Q;
  l_dtxs : option Q;
  l_drxs : option Q
}.

Definition times : nat := 10.

(** Lines 606-631: the body of the [while]. *)
Definition refine_body (cs : coarse) (n_samples t_samples port : Z)
    (l : locals) : M locals :=
  wait_trackphase (c_slave cs) ;;
  mean_skew <- mean_time_interval (c_instr cs) n_samples t_samples ;;
  let mean_skew := (mean_skew * lit_1e12)%Q in
  let dtxs := (l_old_dtxs l - mean_skew)%Q in
  let drxs := (l_old_drxs l + mean_skew)%Q in
  erase_sfp_config (c_slave cs) ;;
  write_sfp_config (c_slave cs) (c_sfp_sn cs) port (Some (dtxs, drxs, c_beta cs)) ;;
  load_sfp_config (c_slave cs) ;;
  ret (mkLocals (S (l_i l)) mean_skew dtxs drxs (Some dtxs) (Some drxs)).

(** [while abs(mean_skew) > error and i < times].  [gas] bounds the
    recursion; [times] units are enough, since [i] grows by one per pass. *)
Fixpoint refine_loop (gas : nat) (cs : coarse) (error : Q)
    (n_samples t_samples port : Z) (l : locals) : M locals :=
  if Qgt_bool (Qabs (l_mean_skew l)) error && (l_i l <? times)%nat
  then
    match gas with
    | O => fun w => Blocked w
    | S gas' =>
        l' <- refine_body cs n_samples t_samples port l ;;
        refine_loop gas' cs error n_samples t_samples port l'
    end
  else ret l.

(** Reading a local variable that may be unbound. *)
Definition local {A : Type} (v : option A) : M A :=
  match v with
  | Some a => ret a
  | None => raise UnboundLocalError
  end.

(** Lines 599-637: the refinement loop and the final store. *)
Definition refine_stage (cs : coarse) (error : Q)
    (n_samples t_samples port : Z) : M unit :=
  let l0 := mkLocals 0 lit_1e10 (coarse_delays cs) (coarse_delays cs) None None in
  l <- refine_loop times cs error n_samples t_samples port l0 ;;
  dtxs <- local (l_dtxs l) ;;
  drxs <- local (l_drxs l) ;;
  c <- get_cfg ;;
  put_cfg (mkCfg (cfg_delta1 c) (cfg_delta2 c) (cfg_fiber_asymmetry c)
                 (dict_set (cfg_port_delay c) (c_key cs) (dtxs, drxs))).

Definition calibrate_device_port (self : instance) (error : Q)
    (n_samples t_samples : Z) (port : Z) (sfp : string) : M unit :=
  cs <- coarse_stage self n_samples t_samples port sfp ;;
  refine_stage cs error n_samples t_samples port.

(** ** [fiber_latency] *)

(** One pass of the loop over [self.fibers] (lines 337-365): the mean
    round-trip time and the physical delays measured on [fiber] go into
    the two local dictionaries. *)
Definition latency_pass (slave : device) (n_samples t_samples : Z)
    (fiber : string) (dicts : dict phy_delays * dict Q)
    : M (dict phy_delays * dict Q) :=
  input ;;
  sleep 1 ;;
  wait_trackphase slave ;;
  mean_rtt <- sample_rtt (Z.to_nat n_samples) t_samples slave 0 ;;
  mean_rtt <- pydiv mean_rtt (inject_Z n_samples) ;;
  delays <- get_phy_delays slave ;;
  ret (dict_set (fst dicts) fiber delays, dict_set (snd dicts) fiber mean_rtt).

Fixpoint latency_fibers (l : list string) (slave : device)
    (n_samples t_samples : Z) (dicts : dict phy_delays * dict Q)
    : M (dict phy_delays * dict Q) :=
  match l with
  | [] => ret dicts
  | fiber :: rest =>
      dicts' <- latency_pass slave n_samples t_samples fiber dicts ;;
      latency_fibers rest slave n_samples t_samples dicts'
  end.

(** [rtt_dict[fiber] - delays_dict[fiber]['master'][1]
     - delays_dict[fiber]['slave'][1]] (lines 369-371). *)
Definition delay_mm (dicts : dict phy_delays * dict Q) (fiber : string) : M Q :=
  rtt <- lookup (snd dicts) fiber ;;
  d <- lookup (fst dicts) fiber ;;
  let bitslide_master := snd (phy_master d) in
  d <- lookup (fst dicts) fiber ;;
  let bitslide_slave := snd (phy_slave d) in
  ret (rtt - bitslide_master - bitslide_slave)%Q.

Definition fiber_latency (self : instance) (n_samples t_samples : Z) : M unit :=
  fun w =>
    if (List.length (devices_of self w) <? 2)%nat then Raise WRDeviceNeeded w
    else
      (master <- index (devices_of self w) 0 ;;
       slave <- index (devices_of self w) 1 ;;
       erase_sfp_config master ;;
       erase_sfp_config slave ;;
       write_sfp_config slave AXGE_1254 1 None ;;
       write_sfp_config master AXGE_3454 1 None ;;
       load_sfp_config master ;;
       load_sfp_config slave ;;
       set_slaveport slave 1 ;;
       set_master master ;;
       dicts <- latency_fibers fibers slave n_samples t_samples ([], []) ;;
       delay_mm1 <- delay_mm dicts "f1" ;;
       delay_mm2 <- delay_mm dicts "f2" ;;
       delay_mm3 <- delay_mm dicts "f1+f2" ;;
       let delta1 := (delay_mm3 - delay_mm2)%Q in
       let delta2 := (delay_mm3 - delay_mm1)%Q in
       c <- get_cfg ;;
       put_cfg (mkCfg delta1 (cfg_delta2 c) (cfg_fiber_asymmetry c) (cfg_port_delay c)) ;;
       c <- get_cfg ;;
       put_cfg (mkCfg (cfg_delta1 c) delta2 (cfg_fiber_asymmetry c) (cfg_port_delay c))) w.

(* ================================================================== *)
(** * Python string operations used by the record format *)
(* ================================================================== *)

Definition LF : ascii := "010"%char.
Definition nl : string := String LF EmptyString.

(** [s.split(sep)] with a one-character separator. *)
Fixpoint split (sep : ascii) (s : string) : list string :=
  match s with
  | EmptyString => [EmptyString]
  | String c r =>
      if Ascii.eqb c sep then EmptyString :: split sep r
      else
        match split sep r with
        | [] => [String c EmptyString]
        | h :: t => String c h :: t
        end
  end.

(** Iterating over a text file: the lines, each with its newline. *)
Fixpoint readlines (s : string) : list string :=
  match s with
  | EmptyString => []
  | String c r =>
      if Ascii.eqb c LF then String c EmptyString :: readlines r
      else
        match readlines r with
        | [] => [String c EmptyString]
        | h :: t => String c h :: t
        end
  end.

(** [s[-1]], when [s] is not empty. *)
Fixpoint last_char (s : string) : option ascii :=
  match s with
  | EmptyString => None
  | String c EmptyString => Some c
  | String _ r => last_char r
  end.

(** [s[:-1]]. *)
Fixpoint drop_last (s : string) : string :=
  match s with
  | EmptyString => EmptyString
  | String _ EmptyString => EmptyString
  | String c r => String c (drop_last r)
  end.

(** [s[1:-1]]. *)
Definition slice_1_m1 (s : string) : string :=
  match s with
  | EmptyString => EmptyString
  | String _ r => drop_last r
  end.

(** ** [float(s)]

    The decimal literals of Python's grammar: surrounding white space, a
    sign, digits with an optional fraction, an optional exponent.  The
    spellings of infinity and NaN and digit-group underscores, which
    [float] also takes, have no counterpart here and are rejected. *)
Definition is_space (c : ascii) : bool :=
  let n := nat_of_ascii c in
  ((n =? 32) || ((9 <=? n) && (n <=? 13)))%nat.

Fixpoint lstrip (s : string) : string :=
  match s with
  | EmptyString => EmptyString
  | String c r => if is_space c then lstrip r else s
  end.

Fixpoint rstrip (s : string) : string :=
  match s with
  | EmptyString => EmptyString
  | String c r =>
      match rstrip r with
      | EmptyString => if is_space c then EmptyString else String c EmptyString
      | r' => String c r'
      end
  end.

Definition strip (s : string) : string := rstrip (lstrip s).

(** The text before the first character satisfying [p], and the text after
    it if there is one. *)
Fixpoint cut (p : ascii -> bool) (s : string) : string * option string :=
  match s with
  | EmptyString => (EmptyString, None)
  | String c r =>
      if p c then (EmptyString, Some r)
      else let (a, b) := cut p r in (String c a, b)
  end.

Definition parse_sign (s : string) : bool * string :=
  match s with
  | String c r =>
      if Ascii.eqb c "-" then (true, r)
      else if Ascii.eqb c "+" then (false, r)
      else (false, s)
  | EmptyString => (false, s)
  end.

Definition is_empty (s : string) : bool :=
  match s with EmptyString => true | _ => false end.

(** Digits, a point, digits: one of the two digit runs may be empty. *)
Definition parse_mantissa (s : string) : option Q :=
  let (ip, fp) := cut (Ascii.eqb ".") s in
  match fp with
  | None =>
      if is_empty ip then None
      else option_map (fun d => inject_Z (Z.of_uint d)) (NilEmpty.uint_of_string ip)
  | Some fp =>
      if is_empty ip && is_empty fp then None
      else
        match NilEmpty.uint_of_string ip, NilEmpty.uint_of_string fp with
        | Some i, Some f =>
            let scale := (10 ^ Z.of_nat (String.length fp))%Z in
            Some (Qmake (Z.of_uint i * scale + Z.of_uint f) (Z.to_pos scale))
        | _, _ => None
        end
  end.

Definition parse_exponent (s : string) : option Z :=
  let (neg, ds) := parse_sign s in
  if is_empty ds then None
  else option_map (fun d => if neg : bool then (- Z.of_uint d)%Z else Z.of_uint d)
                  (NilEmpty.uint_of_string ds).

Definition is_e (c : ascii) : bool := Ascii.eqb c "e" || Ascii.eqb c "E".

Definition float_of_string (s : string) : option Q :=
  let (neg, body) := parse_sign (strip s) in
  let (m, e) := cut is_e body in
  match parse_mantissa m with
  | None => None
  | Some q =>
      let q := if neg then Qopp q else q in
      match e with
      | None => Some q
      | Some es =>
          match parse_exponent es with
          | None => None
          | Some z => Some (q * Qpower (10 # 1) z)%Q
          end
      end
  end.

Definition float (s : string) : M Q :=
  match float_of_string s with
  | Some q => ret q
  | None => raise ValueError
  end.

(** ** Formatting *)








(* ================================================================== *)
(** * The record file: [write_config] and [read_config] *)
(* ================================================================== *)





Definition set_delta1 (x : Q) : M unit :=
  c <- get_cfg ;;
  put_cfg (mkCfg x (cfg_delta2 c) (cfg_fiber_asymmetry c) (cfg_port_delay c)).

Definition set_delta2 (x : Q) : M unit :=
  c <- get_cfg ;;
  put_cfg (mkCfg (cfg_delta1 c) x (cfg_fiber_asymmetry c) (cfg_port_delay c)).

Definition set_asymmetry (k : string) (x : Q) : M unit :=
  c <- get_cfg ;;
  put_cfg (mkCfg (cfg_delta1 c) (cfg_delta2 c)
                 (dict_set (cfg_fiber_asymmetry c) k x) (cfg_port_delay c)).

Definition set_port_delay (k : string) (x : Q * Q) : M unit :=
  c <- get_cfg ;;
  put_cfg (mkCfg (cfg_delta1 c) (cfg_delta2 c) (cfg_fiber_asymmetry c)
                 (dict_set (cfg_port_delay c) k x)).

(** [s[-1]] as an expression. *)
Definition last_of (s : string) : M ascii :=
  match last_char s with
  | Some c => ret c
  | None => raise IndexError
  end.

(** Lines 202-207: the data line of the fibre-latency block. *)
Definition latency_line (line : string) : M nat :=
  t <- index (split " " line) 0 ;;
  p <- index (split ":" t) 1 ;;
  delta1 <- float p ;;
  t <- index (split " " line) 1 ;;
  p <- index (split ":" t) 1 ;;
  delta2 <- float (drop_last p) ;;
  set_delta1 delta1 ;;
  set_delta2 delta2 ;;
  ret 0%nat.

(** Lines 210-217: the tokens of a fibre-asymmetry line. *)
Fixpoint asymmetry_tokens (tokens : list string) (flag : nat) : M nat :=
  match tokens with
  | [] => ret flag
  | i :: rest =>
      if (i =? nl)%string then asymmetry_tokens rest flag
      else
        k <- index (split ":" i) 0 ;;
        v <- index (split ":" i) 1 ;;
        c <- last_of v ;;
        let ends := Ascii.eqb c LF in
        let v := if ends then drop_last v else v in
        let flag := if ends then 0%nat else flag in
        x <- float v ;;
        set_asymmetry k x ;;
        asymmetry_tokens rest flag
  end.

(** Lines 220-228: the tokens of a port-delay line. *)
Fixpoint delay_tokens (tokens : list string) (flag : nat) : M nat :=
  match tokens with
  | [] => ret flag
  | i :: rest =>
      if (i =? nl)%string then delay_tokens rest flag
      else
        k <- index (split ":" i) 0 ;;
        p <- index (split ":" i) 1 ;;
        dtxs <- index (split "," p) 0 ;;
        p <- index (split ":" i) 1 ;;
        drxs <- index (split "," p) 1 ;;
        c <- last_of drxs ;;
        let ends := Ascii.eqb c LF in
        let drxs := if ends then drop_last drxs else drxs in
        let flag := if ends then 0%nat else flag in
        a <- float dtxs ;;
        b <- float drxs ;;
        set_port_delay k (a, b) ;;
        delay_tokens rest flag
  end.

(** Lines 195-199: a marker line. *)
Definition marker (line : string) (flag : nat) : nat :=
  let key := slice_1_m1 line in
  let flag := if (key =? "fiber-latency")%string then 1%nat else flag in
  let flag := if (key =? "fiber-asymmetry")%string then 2%nat else flag in
  let flag := if (key =? "port-delay")%string then 3%nat else flag in
  flag.

(** Lines 191-228: the body of [for line in cfg]. *)
Definition read_line (line : string) (flag : nat) : M nat :=
  match line with
  | EmptyString => raise IndexError
  | String c _ =>
      if Ascii.eqb c "#" then ret flag
      else if Ascii.eqb c "@" then ret (marker line flag)
      else
        flag <- (if (flag =? 1)%nat then latency_line line else ret flag) ;;
        flag <- (if (flag =? 2)%nat
                 then asymmetry_tokens (split " " line) flag else ret flag) ;;
        flag <- (if (flag =? 3)%nat
                 then delay_tokens (split " " line) flag else ret flag) ;;
        ret flag
  end.

Fixpoint read_lines (lines : list string) (flag : nat) : M nat :=
  match lines with
  | [] => ret flag
  | line :: rest => flag' <- read_line line flag ;; read_lines rest flag'
  end.

(** The local [cfg_dict = {}] of line 187 is never read or written again;
    every assignment goes to [self.cfg_dict]. *)
Definition read_config (self : instance) (cfg_file : string) : M unit :=
  fun w =>
    match dict_get (fs w) cfg_file with
    | None => Raise FileNotFoundError w
    | Some text => (read_lines (readlines text) 0 ;; ret tt) w
    end.

(* ================================================================== *)
(** * Auxiliary definitions for the statements *)
(* ================================================================== *)

(** How many [True] answers a track-phase script still holds. *)
Definition locks (script : list bool) : nat := count_occ bool_dec script true.

(** The events of one wait for track phase: polls and sleeps only. *)
Fixpoint wait_events (slave : device) (script : list bool) : list event :=
  match script with
  | [] => []
  | a :: r =>
      EvInTrackphase slave a :: (if a then [] else EvSleep 2 :: wait_events slave r)
  end.

(** What is left of a track-phase script after one wait. *)
Fixpoint after_lock (script : list bool) : list bool :=
  match script with
  | [] => []
  | a :: r => if a then r else after_lock r
  end.

Definition emits (evs : list event) (w : world) : world :=
  mkWorld (cfg_dict w) (cls_devices w) (fs w) (clock w) (wr_modules w) (meas_modules w)
          (trace w ++ evs) (track_script w) (rtt_script w) (phy_script w) (skew_script w).

(** The world once [wait_trackphase] has polled up to and including the
    first [True] of the script. *)
Definition after_wait (slave : device) (w : world) : world :=
  set_track_script (after_lock (track_script w))
    (emits (wait_events slave (track_script w)) w).

(** The locals after one pass of the refinement loop that measured [m]
    seconds. *)
Definition next_locals (l : locals) (m : Q) : locals :=
  let mean_skew := (m * lit_1e12)%Q in
  let dtxs := (l_old_dtxs l - mean_skew)%Q in
  let drxs := (l_old_drxs l + mean_skew)%Q in
  mkLocals (S (l_i l)) mean_skew dtxs drxs (Some dtxs) (Some drxs).

(** The commands of one pass, after the wait for track phase. *)
Definition pass_events (cs : coarse) (n_samples t_samples port : Z)
    (l : locals) (m : Q) : list event :=
  let l' := next_locals l m in
  [EvMeanTimeInterval (c_instr cs) n_samples t_samples m;
   EvEraseSfp (c_slave cs);
   EvWriteSfp (c_slave cs) (c_sfp_sn cs) port
     (Some (l_old_dtxs l', l_old_drxs l', c_beta cs));
   EvLoadSfp (c_slave cs)].

(** The world after one pass that measured [m]. *)
Definition after_pass (cs : coarse) (n_samples t_samples port : Z)
    (l : locals) (m : Q) (w : world) : world :=
  emits (pass_events cs n_samples t_samples port l m)
    (set_skew_script (tl (skew_script w)) (after_wait (c_slave cs) w)).

(** The world after one pass for each measurement of [ms]. *)
Fixpoint after_passes (cs : coarse) (n_samples t_samples port : Z)
    (l : locals) (ms : list Q) (w : world) : world :=
  match ms with
  | [] => w
  | m :: r =>
      after_passes cs n_samples t_samples port (next_locals l m) r
        (after_pass cs n_samples t_samples port l m w)
  end.

(** The delays after the updates [dtxs = old_dtxs - mean_skew] and
    [drxs = old_drxs + mean_skew], one per measured skew (in seconds). *)
Definition dtxs_after (start : Q) (skews : list Q) : Q :=
  fold_left (fun a m => (a - m * lit_1e12)%Q) skews start.

Definition drxs_after (start : Q) (skews : list Q) : Q :=
  fold_left (fun a m => (a + m * lit_1e12)%Q) skews start.

(** The locals on entry to the refinement loop. *)
Definition first_locals (cs : coarse) : locals :=
  mkLocals 0 lit_1e10 (coarse_delays cs) (coarse_delays cs) None None.

(** The final store of [calibrate_device_port]. *)
Definition store_delays (key : string) (v : Q * Q) (w : world) : world :=
  set_cfg (mkCfg (cfg_delta1 (cfg_dict w)) (cfg_delta2 (cfg_dict w))
                 (cfg_fiber_asymmetry (cfg_dict w))
                 (dict_set (cfg_port_delay (cfg_dict w)) key v)) w.

(** The world after one pass of the loop over the fibres that measured
    the raw skew [m], whether the value was accepted or rejected. *)
Definition after_measure (instr : instrument) (slave : device)
    (n_samples t_samples : Z) (m : Q) (w : world) : world :=
  let w1 := after_wait slave (emit (EvSleep 1) (emit EvInput (emit EvInput w))) in
  set_skew_script (tl (skew_script w1))
    (emit (EvMeanTimeInterval instr n_samples t_samples m) w1).


(** ** The record format, token by token *)

(** Every character of [s] satisfies [p]. *)
Fixpoint string_forall (p : ascii -> bool) (s : string) : bool :=
  match s with
  | EmptyString => true
  | String c r => p c && string_forall p r
  end.

Definition is_not (c : ascii) : ascii -> bool := fun a => negb (Ascii.eqb a c).

Definition is_digit (c : ascii) : bool :=
  let n := nat_of_ascii c in ((48 <=? n) && (n <=? 57))%nat.

(** The characters of a formatted number: digits, minus sign, point. *)
Definition num_char (c : ascii) : bool :=
  is_digit c || Ascii.eqb c "-" || Ascii.eqb c ".".

(** The decimal digits of the magnitude of [z]. *)
Definition digits_of (z : Z) : Decimal.uint :=
  match z with
  | Z0 => Decimal.D0 Decimal.Nil
  | Zpos p => Pos.to_uint p
  | Zneg p => Pos.to_uint p
  end.

(** A key the format can carry: no space, colon or newline in it, and no
    ['#'] or ['@'] in front. *)
Definition plain_key (k : string) : bool :=
  string_forall (fun a => is_not " " a && is_not ":" a && is_not LF a) k
  && match k with
     | String c _ => is_not "#" c && is_not "@" c
     | EmptyString => true
     end.

(** The keys of the data model: ["<sfp-color>-wr<port>"]. *)
Definition record_key (k : string) : Prop :=
  exists sfp port, (sfp = "blue" \/ sfp = "violet") /\ k = format_key sfp port.
















(** A method respects [R] when [R] relates the world it starts in to the
    world of its outcome, whatever the outcome. *)
Definition respects (R : world -> world -> Prop) {A : Type} (m : M A) : Prop :=
  forall w, R w (world_of (m w)).

(** Every value the method returns satisfies [P]. *)
Definition returns {A : Type} (P : A -> Prop) (m : M A) : Prop :=
  forall w a w', m w = Ret a w' -> P a.

(** Neither the record nor the instrument script has changed. *)
Definition quiet (w w' : world) : Prop :=
  cfg_dict w' = cfg_dict w /\ skew_script w' = skew_script w.

(** The trace has only grown. *)
Definition extends (w w' : world) : Prop :=
  exists evs, trace w' = trace w ++ evs.

(** ** Sampling the round-trip time *)






(** The commands [fiber_asymmetry] issues before its first prompt. *)
Definition asymmetry_setup_events (master slave : device) (port : Z) (sfp : string)
    : list event :=
  [EvEraseSfp master;
   EvEraseSfp slave;
   EvWriteSfp slave (if (sfp =? "blue")%string then AXGE_1254 else AXGE_3454) port None;
   EvWriteSfp master (if (sfp =? "blue")%string then AXGE_3454 else AXGE_1254) port None;
   EvLoadSfp master;
   EvLoadSfp slave;
   EvSetSlaveport slave port;
   EvSetMaster master].

(** Everything but the record is as it was. *)
Definition only_record (w w' : world) : Prop :=
  cls_devices w' = cls_devices w
  /\ fs w' = fs w
  /\ clock w' = clock w
  /\ wr_modules w' = wr_modules w
  /\ meas_modules w' = meas_modules w
  /\ trace w' = trace w
  /\ track_script w' = track_script w
  /\ rtt_script w' = rtt_script w
  /\ phy_script w' = phy_script w
  /\ skew_script w' = skew_script w.


(** The device list and the fibre latency are as before. *)
Definition keeps_setup (w w' : world) : Prop :=
  cls_devices w' = cls_devices w
  /\ cfg_delta1 (cfg_dict w') = cfg_delta1 (cfg_dict w)
  /\ cfg_delta2 (cfg_dict w') = cfg_delta2 (cfg_dict w).

(** Every world the method returns in satisfies [P]. *)
Definition ensures {A : Type} (P : world -> Prop) (m : M A) : Prop :=
  forall w a w', m w = Ret a w' -> P w'.

(* ================================================================== *)
(** * Concrete sessions *)
(* ================================================================== *)

Definition dev_master : device := mkDevice "WR_LEN" "serial" "/dev/ttyUSB0".
Definition dev_slave : device := mkDevice "WR_LEN" "serial" "/dev/ttyUSB1".
Definition counter : instrument := mkInstrument "KEYSIGHT_53230A" "/dev/usbtmc0".

(** An instance that has added an instrument and uses the class-level
    device list. *)
Definition operator : instance := mkInstance None (Some counter).

Definition a_clock : datetime := mkDatetime 9 5 2015 4 23.

(** A session with the given record, devices and environment scripts; no
    command issued yet. *)
Definition session (c : cfg) (devs : list device) (track : list bool)
    (rtts : list Q) (phys : list phy_delays) (skews : list Q) : world :=
  mkWorld c devs [] a_clock [] [] [] track rtts phys skews.

(** Two devices, an instrument, no fibre-latency measurement yet. *)
Definition unmeasured : world :=
  session empty_cfg [dev_master; dev_slave] [] [] [] [].

(** The record once fibre latency and the asymmetry of a blue SFP on port
    1 are known. *)
Definition measured_cfg : cfg :=
  mkCfg (50000 # 1) (2000 # 1) [("blue-wr1", 219902325555 # 1)] [].

(** A device to calibrate: it locks after one failed poll, then at once;
    two round-trip samples; skews of 3 ns, -1 ns and 10 ps, then more. *)
Definition calibrating : world :=
  session measured_cfg [dev_slave]
    [false; true; true; false; true; true; true]
    [1000100 # 1; 1000300 # 1]
    [mkPhy (200 # 1, 300 # 1) (250 # 1, 700 # 1)]
    [3 # 1000000000; -1 # 1000000000; 1 # 100000000000; 5 # 1000000000].


(** Master and slave joined by the fibres, fibre latency measured; the
    instrument answers with [skews], one per fibre. *)
Definition measuring (skews : list Q) : world :=
  session (mkCfg (50000 # 1) (2000 # 1) [] []) [dev_master; dev_slave]
    [false; true; true; true] [] [] skews.

(** A session that holds entries for a blue SFP on port 1, and a file
    [other.cfg] that only has entries for a violet SFP on port 2. *)
Definition other_cfg_text : string :=
  ("@fiber-latency" ++ nl ++ "delta1:1.0 delta2:2.0" ++ nl
   ++ "@fiber-asymmetry" ++ nl ++ "violet-wr2:7 " ++ nl
   ++ "@port-delay" ++ nl ++ "violet-wr2:3,4 " ++ nl)%string.

Definition holding_blue : world :=
  set_fs [("other.cfg", other_cfg_text)]
    (session (mkCfg (50000 # 1) (2000 # 1) [("blue-wr1", 5 # 1)]
                    [("blue-wr1", (1 # 1, 2 # 1))])
             [] [] [] [] []).

(** A new session and three damaged files: a token without colon after a
    good one, a value that is no number, and two spaces in a row. *)
Definition damaged_files : world :=
  set_fs [("no-colon.cfg", ("@fiber-asymmetry" ++ nl ++ "blue-wr1:5 bad " ++ nl)%string);
          ("no-number.cfg", ("@fiber-asymmetry" ++ nl ++ "blue-wr1:abc " ++ nl)%string);
          ("two-spaces.cfg", ("@port-delay" ++ nl ++ "blue-wr1:5,6  violet-wr1:7,8 " ++ nl)%string)]
    (session empty_cfg [] [] [] [] []).


(** The modules a session can import. *)
Definition with_modules (w : world) : world :=
  mkWorld (cfg_dict w) (cls_devices w) (fs w) (clock w)
          [("wr_devices.wr_len", "WR_LEN")] [("measurement.tic", "TIC")]
          (trace w) (track_script w) (rtt_script w) (phy_script w) (skew_script w).

(** Two instances; the first removes its devices, then the second adds
    one. *)
Definition remove_then_add : M (instance * instance) :=
  a <- init ;;
  b <- init ;;
  a <- remove_wr_devices a ;;
  b <- add_wr_device b "wr_len" ["serial"; "/dev/ttyUSB0"] ;;
  ret (a, b).

(** Two devices to link with f1, f2 and f1+f2 in turn: two round-trip
    samples and one reading of the physical delays per fibre. *)
Definition linking : world :=
  session empty_cfg [dev_master; dev_slave]
    [true; false; true; true]
    [1000 # 1; 1002 # 1; 11000 # 1; 11004 # 1; 11800 # 1; 11802 # 1]
    [mkPhy (0 # 1, 100 # 1) (0 # 1, 200 # 1);
     mkPhy (0 # 1, 150 # 1) (0 # 1, 250 # 1);
     mkPhy (0 # 1, 100 # 1) (0 # 1, 200 # 1)]
    [].

(** Fibre latency measured (delta1 = 50000 ps, delta2 = 2000 ps), no
    fibre-asymmetry entry. *)
Definition latency_only : world :=
  session (mkCfg (50000 # 1) (2000 # 1) [] []) [dev_slave] [] [] [] [].

(* ================================================================== *)
(** * Running the monad *)
(* ================================================================== *)

Lemma bind_Ret {A B : Type} (m : M A) (k : A -> M B) w a w' :
  m w = Ret a w' -> bind m k w = k a w'.
Proof. intros H. unfold bind. rewrite H. reflexivity. Qed.

Lemma bind_Raise {A B : Type} (m : M A) (k : A -> M B) w e w' :
  m w = Raise e w' -> bind m k w = Raise e w'.
Proof. intros H. unfold bind. rewrite H. reflexivity. Qed.


Lemma bind_assoc {A B C : Type} (m : M A) (k : A -> M B) (h : B -> M C) w :
  bind (bind m k) h w = bind m (fun a => bind (k a) h) w.
Proof. unfold bind. destruct (m w); reflexivity. Qed.

(** Two worlds with the same components are the same world. *)
Lemma world_ext (w w' : world) :
  cfg_dict w = cfg_dict w' ->
  cls_devices w = cls_devices w' ->
  fs w = fs w' ->
  clock w = clock w' ->
  wr_modules w = wr_modules w' ->
  meas_modules w = meas_modules w' ->
  trace w = trace w' ->
  track_script w = track_script w' ->
  rtt_script w = rtt_script w' ->
  phy_script w = phy_script w' ->
  skew_script w = skew_script w' ->
  w = w'.
Proof. destruct w, w'; simpl; intros; subst; reflexivity. Qed.

(** One step of symbolic execution: the head of a [bind] that returns. *)
Ltac step := erewrite bind_Ret by reflexivity.
Ltac steps := repeat step.

(** ** Waiting for track phase *)

Lemma locks_cons_true r : locks (true :: r) = S (locks r).
Proof. reflexivity. Qed.

Lemma locks_cons_false r : locks (false :: r) = locks r.
Proof. reflexivity. Qed.

Lemma locks_after_lock script :
  (1 <= locks script)%nat -> S (locks (after_lock script)) = locks script.
Proof.
  induction script as [|a r IH]; intros H.
  - inversion H.
  - destruct a.
    + reflexivity.
    + rewrite locks_cons_false in *. simpl. auto.
Qed.

Lemma while_not_trackphase_ok slave :
  forall script polls w,
    track_script w = script ->
    (List.length script < polls)%nat ->
    (1 <= locks script)%nat ->
    while_not_trackphase polls slave w =
    Ret tt (set_track_script (after_lock script) (emits (wait_events slave script) w)).
Proof.
  induction script as [|a r IH]; intros polls w Hs Hp Hl.
  - inversion Hl.
  - destruct polls as [|polls]; [inversion Hp|].
    simpl in Hp. apply PeanoNat.lt_S_n in Hp.
    simpl while_not_trackphase.
    erewrite bind_Ret by (unfold in_trackphase; rewrite Hs; reflexivity).
    destruct a.
    + reflexivity.
    + step. rewrite IH; [|reflexivity|assumption|assumption].
      f_equal. apply world_ext; simpl; try reflexivity.
      rewrite <- !app_assoc. reflexivity.
Qed.

Lemma wait_trackphase_ok slave w :
  (1 <= locks (track_script w))%nat ->
  wait_trackphase slave w = Ret tt (after_wait slave w).
Proof.
  intros H. unfold wait_trackphase, after_wait.
  apply while_not_trackphase_ok; auto.
Qed.

(* ================================================================== *)
(** * Preconditions of the estimators *)
(* ================================================================== *)

Lemma Qeq_bool_true (x y : Q) : x == y -> Qeq_bool x y = true.
Proof. apply Qeq_bool_iff. Qed.

Lemma Qeq_bool_false (x y : Q) : ~ x == y -> Qeq_bool x y = false.
Proof.
  intros H. destruct (Qeq_bool x y) eqn:E; auto.
  apply Qeq_bool_iff in E. contradiction.
Qed.

(** C8. With enough devices and an instrument, [fiber_asymmetry] and
    [calibrate_device_port] called while [delta1 == 0] raise
    [FiberLatencyNeeded] in the very world they were called in: no command
    has been issued, no script consumed, the record is untouched. *)
Theorem latency_needed_before_any_command :
  forall (self : instance) (error : Q) (n_samples t_samples port : Z)
         (sfp : string) (w : world),
    cfg_delta1 (cfg_dict w) == 0 ->
    instr_of self <> None ->
    ((2 <= List.length (devices_of self w))%nat ->
     fiber_asymmetry self n_samples t_samples port sfp w = Raise FiberLatencyNeeded w)
    /\
    ((1 <= List.length (devices_of self w))%nat ->
     calibrate_device_port self error n_samples t_samples port sfp w
     = Raise FiberLatencyNeeded w).
Proof.
  intros self error n t port sfp w Hd Hi.
  apply Qeq_bool_true in Hd.
  split; intros Hn.
  - unfold fiber_asymmetry.
    destruct (Nat.ltb_spec (List.length (devices_of self w)) 2); [lia|].
    destruct (instr_of self); [|contradiction].
    rewrite Hd. reflexivity.
  - unfold calibrate_device_port. apply bind_Raise.
    unfold coarse_stage.
    destruct (Nat.ltb_spec (List.length (devices_of self w)) 1); [lia|].
    destruct (instr_of self); [|contradiction].
    rewrite Hd. reflexivity.
Qed.

Lemma latency_needed_before_any_command_witness :
  fiber_asymmetry operator 10 5 1 "blue" unmeasured = Raise FiberLatencyNeeded unmeasured
  /\ calibrate_device_port operator (100 # 1) 10 5 1 "blue" unmeasured
     = Raise FiberLatencyNeeded unmeasured.
Proof.
  assert (Hd : cfg_delta1 (cfg_dict unmeasured) == 0) by reflexivity.
  assert (Hi : instr_of operator <> None) by discriminate.
  destruct (latency_needed_before_any_command
              operator (100 # 1) 10 5 1 "blue" unmeasured Hd Hi) as [Ha Hb].
  split; [apply Ha | apply Hb]; simpl; lia.
Defined.

(** C2. With the fibre latency measured but no asymmetry entry for
    ["blue-wr1"], [calibrate_device_port] stops before any device command,
    and the exception it raises is [FiberLatencyNeeded], not
    [FiberAsymmetryNeeded]. *)
Theorem missing_asymmetry_raises_latency_needed :
  dict_get (cfg_fiber_asymmetry (cfg_dict latency_only)) (format_key "blue" 1) = None
  /\ ~ cfg_delta1 (cfg_dict latency_only) == 0
  /\ calibrate_device_port operator (100 # 1) 10 5 1 "blue" latency_only
     = Raise FiberLatencyNeeded latency_only
  /\ FiberLatencyNeeded <> FiberAsymmetryNeeded.
Proof.
  split; [reflexivity|]. split; [discriminate|]. split; [reflexivity|discriminate].
Qed.

(* ================================================================== *)
(** * Relations every device command respects *)
(* ================================================================== *)

Section Respects.

(** A relation between the world before and the world after, closed
    under the steps that talk to the devices. *)
Variable R : world -> world -> Prop.
Hypothesis R_refl : forall w, R w w.
Hypothesis R_trans : forall w1 w2 w3, R w1 w2 -> R w2 w3 -> R w1 w3.
Hypothesis R_emit : forall e w, R w (emit e w).
Hypothesis R_track : forall l w, R w (set_track_script l w).
Hypothesis R_rtt : forall l w, R w (set_rtt_script l w).
Hypothesis R_phy : forall l w, R w (set_phy_script l w).

Local Abbreviation respects := (respects R).

Lemma respects_ret {A : Type} (a : A) : respects (ret a).
Proof. intros w. apply R_refl. Qed.

Lemma respects_raise {A : Type} (e : exn) : respects (@raise A e).
Proof. intros w. apply R_refl. Qed.

Lemma respects_bind {A B : Type} (m : M A) (k : A -> M B) :
  respects m -> (forall a, respects (k a)) -> respects (bind m k).
Proof.
  intros Hm Hk w. unfold bind. specialize (Hm w).
  destruct (m w) as [a w'| |]; simpl in *; auto.
  eapply R_trans; [exact Hm | apply Hk].
Qed.

Lemma respects_do (e : event) : respects (do e).
Proof. intros w. apply R_emit. Qed.

Lemma respects_get_cfg : respects get_cfg.
Proof. intros w. apply R_refl. Qed.

Lemma respects_index {A : Type} (l : list A) (n : nat) : respects (index l n).
Proof. unfold index. destruct (nth_error l n); intros w; apply R_refl. Qed.

Lemma respects_lookup {V : Type} (d : dict V) (k : string) : respects (lookup d k).
Proof. unfold lookup. destruct (dict_get d k); intros w; apply R_refl. Qed.

Lemma respects_pydiv (a b : Q) : respects (pydiv a b).
Proof. unfold pydiv. destruct (Qeq_bool b 0); intros w; apply R_refl. Qed.

Lemma respects_local {A : Type} (v : option A) : respects (local v).
Proof. destruct v; intros w; apply R_refl. Qed.

Lemma respects_in_trackphase (d : device) : respects (in_trackphase d).
Proof.
  intros w. unfold in_trackphase. destruct (track_script w); simpl.
  - apply R_refl.
  - eapply R_trans; [apply R_emit | apply R_track].
Qed.

Lemma respects_get_rtt (d : device) : respects (get_rtt d).
Proof.
  intros w. unfold get_rtt. destruct (rtt_script w); simpl.
  - apply R_refl.
  - eapply R_trans; [apply R_emit | apply R_rtt].
Qed.

Lemma respects_get_phy_delays (d : device) : respects (get_phy_delays d).
Proof.
  intros w. unfold get_phy_delays. destruct (phy_script w); simpl.
  - apply R_refl.
  - eapply R_trans; [apply R_emit | apply R_phy].
Qed.

Lemma respects_while_not_trackphase (slave : device) :
  forall polls, respects (while_not_trackphase polls slave).
Proof.
  induction polls as [|polls IH].
  - intros w. apply R_refl.
  - simpl. apply respects_bind; [apply respects_in_trackphase|].
    intros [|]; [apply respects_ret|].
    apply respects_bind; [apply respects_do | intros _; exact IH].
Qed.

Lemma respects_wait_trackphase (slave : device) : respects (wait_trackphase slave).
Proof. intros w. apply respects_while_not_trackphase. Qed.

Lemma respects_sample_rtt (slave : device) (t_samples : Z) :
  forall n mean_rtt, respects (sample_rtt n t_samples slave mean_rtt).
Proof.
  induction n as [|n IH]; intros mean_rtt; simpl.
  - apply respects_ret.
  - apply respects_bind; [apply respects_get_rtt|]. intros rtt.
    apply respects_bind; [apply respects_do | intros _; apply IH].
Qed.

(** The coarse stage only talks to the device under calibration. *)
Lemma respects_coarse_stage self n_samples t_samples port sfp :
  respects (coarse_stage self n_samples t_samples port sfp).
Proof.
  intros w. unfold coarse_stage.
  destruct (List.length (devices_of self w) <? 1)%nat; [apply R_refl|].
  destruct (instr_of self) as [instr|]; [|apply R_refl].
  destruct (Qeq_bool (cfg_delta1 (cfg_dict w)) 0); [apply R_refl|].
  destruct (negb _); [apply R_refl|].
  generalize (devices_of self w) as devs. intros devs. revert w.
  match goal with
  | |- forall w, R w (world_of (?m w)) => change (respects m)
  end.
  repeat first
    [ apply respects_bind; [|intro]
    | apply respects_ret
    | apply respects_index | apply respects_do | apply respects_get_cfg
    | apply respects_lookup | apply respects_wait_trackphase
    | apply respects_sample_rtt | apply respects_pydiv
    | apply respects_get_phy_delays ].
Qed.

End Respects.

Lemma returns_bind {A B : Type} (P : B -> Prop) (m : M A) (k : A -> M B) :
  (forall a, returns P (k a)) -> returns P (bind m k).
Proof.
  intros Hk w b w' H. unfold bind in H.
  destruct (m w) as [a w1| |]; try discriminate.
  eapply Hk; eauto.
Qed.

Lemma returns_ret {A : Type} (P : A -> Prop) (a : A) : P a -> returns P (ret a).
Proof. intros H w a' w' E. injection E as <- _. exact H. Qed.

Lemma quiet_refl w : quiet w w.
Proof. split; reflexivity. Qed.

Lemma quiet_trans w1 w2 w3 : quiet w1 w2 -> quiet w2 w3 -> quiet w1 w3.
Proof. intros [A1 B1] [A2 B2]. split; congruence. Qed.

Lemma extends_refl w : extends w w.
Proof. exists []. symmetry. apply app_nil_r. Qed.

Lemma extends_trans w1 w2 w3 : extends w1 w2 -> extends w2 w3 -> extends w1 w3.
Proof.
  intros [e1 H1] [e2 H2]. exists (e1 ++ e2).
  rewrite H2, H1. symmetry. apply app_assoc.
Qed.

Lemma extends_emit e w : extends w (emit e w).
Proof. exists [e]. reflexivity. Qed.

Lemma extends_same_trace w w' : trace w' = trace w -> extends w w'.
Proof. intros H. exists []. rewrite H. symmetry. apply app_nil_r. Qed.

(** The coarse stage leaves the record and the instrument alone. *)
Lemma coarse_stage_quiet self n_samples t_samples port sfp w :
  quiet w (world_of (coarse_stage self n_samples t_samples port sfp w)).
Proof.
  apply (respects_coarse_stage quiet quiet_refl quiet_trans);
    intros; split; reflexivity.
Qed.

(** The key it hands on is ["%s-wr%d" % (sfp, port)]. *)
Lemma coarse_stage_key self n_samples t_samples port sfp w cs w1 :
  coarse_stage self n_samples t_samples port sfp w = Ret cs w1 ->
  c_key cs = format_key sfp port.
Proof.
  revert cs w1. unfold coarse_stage.
  destruct (List.length (devices_of self w) <? 1)%nat; [discriminate|].
  destruct (instr_of self) as [instr|]; [|discriminate].
  destruct (Qeq_bool (cfg_delta1 (cfg_dict w)) 0); [discriminate|].
  destruct (negb _); [discriminate|].
  generalize (devices_of self w) as devs. intros devs. revert w.
  match goal with
  | |- forall w a w', ?m w = Ret a w' -> _ =>
      change (returns (fun cs => c_key cs = format_key sfp port) m)
  end.
  repeat (apply returns_bind; intro).
  apply returns_ret. reflexivity.
Qed.

(* ================================================================== *)
(** * The refinement loop of [calibrate_device_port] *)
(* ================================================================== *)

Lemma Qgt_bool_true (a b : Q) : b < a -> Qgt_bool a b = true.
Proof.
  intros H. unfold Qgt_bool. destruct (Qle_bool a b) eqn:E; auto.
  apply Qle_bool_iff in E. exfalso. eapply Qlt_not_le; eauto.
Qed.

Lemma Qgt_bool_false (a b : Q) : a <= b -> Qgt_bool a b = false.
Proof.
  intros H. unfold Qgt_bool. apply Qle_bool_iff in H. rewrite H. reflexivity.
Qed.

(** One pass of the loop, given a lock and a measurement. *)
Lemma refine_body_ok cs n_samples t_samples port l w m rest :
  (1 <= locks (track_script w))%nat ->
  skew_script w = m :: rest ->
  refine_body cs n_samples t_samples port l w
  = Ret (next_locals l m) (after_pass cs n_samples t_samples port l m w).
Proof.
  intros Hl Hs. unfold refine_body.
  erewrite bind_Ret by (apply wait_trackphase_ok; exact Hl).
  erewrite bind_Ret
    by (unfold mean_time_interval, after_wait; simpl; rewrite Hs; reflexivity).
  steps. unfold ret, next_locals, after_pass, pass_events, after_wait. f_equal.
  apply world_ext; simpl; rewrite ?Hs; try reflexivity.
  rewrite <- !app_assoc. reflexivity.
Qed.

(** The loop stops as soon as its condition fails. *)
Lemma refine_loop_exit gas cs error n_samples t_samples port l w :
  Qgt_bool (Qabs (l_mean_skew l)) error && (l_i l <? times)%nat = false ->
  refine_loop gas cs error n_samples t_samples port l w = Ret l w.
Proof. intros H. destruct gas; simpl; rewrite H; reflexivity. Qed.

(** The loop takes a pass whenever its condition holds. *)
Lemma refine_loop_enter gas cs error n_samples t_samples port l :
  Qgt_bool (Qabs (l_mean_skew l)) error && (l_i l <? times)%nat = true ->
  refine_loop (S gas) cs error n_samples t_samples port l
  = (l' <- refine_body cs n_samples t_samples port l ;;
     refine_loop gas cs error n_samples t_samples port l').
Proof. intros H. simpl. rewrite H. reflexivity. Qed.

(** The loop takes one pass per measurement of [pre ++ [m]]: the skews of
    [pre] are above [error], and [m] either is within [error] or is the
    measurement of pass number [times]. *)
Lemma refine_loop_run cs error n_samples t_samples port :
  forall pre m rest l w gas,
    error < Qabs (l_mean_skew l) ->
    Forall (fun s => error < Qabs (s * lit_1e12)) pre ->
    (l_i l + List.length pre < times)%nat ->
    (Qabs (m * lit_1e12) <= error \/ (S (l_i l + List.length pre) = times)%nat) ->
    (List.length pre < gas)%nat ->
    (List.length pre < locks (track_script w))%nat ->
    skew_script w = pre ++ m :: rest ->
    refine_loop gas cs error n_samples t_samples port l w
    = Ret (fold_left next_locals (pre ++ [m]) l)
          (after_passes cs n_samples t_samples port l (pre ++ [m]) w).
Proof.
  induction pre as [|s pre IH]; intros m rest l w gas Hc Hpre Hi Hend Hgas Hl Hs;
    cbn [List.length] in Hi, Hend, Hgas, Hl;
    (destruct gas as [|gas]; [inversion Hgas|]);
    simpl refine_loop;
    rewrite (Qgt_bool_true _ _ Hc);
    (destruct (Nat.ltb_spec (l_i l) times) as [_|Hn]; [|lia]);
    cbn [andb];
    erewrite bind_Ret by (eapply refine_body_ok; [lia | exact Hs]).
  - apply refine_loop_exit. cbn [fold_left app]. unfold next_locals.
    cbn [l_mean_skew l_i].
    destruct Hend as [Hend|Hend].
    + rewrite (Qgt_bool_false _ _ Hend). reflexivity.
    + apply andb_false_iff. right. apply Nat.ltb_ge. lia.
  - inversion Hpre as [|? ? Hs1 Hpre']; subst.
    pose proof (locks_after_lock (track_script w)) as Hk.
    apply (IH m rest).
    + exact Hs1.
    + exact Hpre'.
    + cbn [l_i next_locals]. lia.
    + cbn [l_i next_locals]. destruct Hend as [H|H]; [left; exact H | right; lia].
    + lia.
    + change (track_script (after_pass cs n_samples t_samples port l s w))
        with (after_lock (track_script w)). lia.
    + change (skew_script (after_pass cs n_samples t_samples port l s w))
        with (tl (skew_script w)). rewrite Hs. reflexivity.
Qed.

Lemma old_dtxs_fold ms : forall l,
  l_old_dtxs (fold_left next_locals ms l) = dtxs_after (l_old_dtxs l) ms.
Proof. induction ms as [|m ms IH]; intros l; simpl; [reflexivity | apply IH]. Qed.

Lemma old_drxs_fold ms : forall l,
  l_old_drxs (fold_left next_locals ms l) = drxs_after (l_old_drxs l) ms.
Proof. induction ms as [|m ms IH]; intros l; simpl; [reflexivity | apply IH]. Qed.

(** After at least one pass [dtxs] and [drxs] are bound, to the values the
    next pass would start from. *)
Lemma bound_after_pass ms m : forall l,
  let l' := fold_left next_locals (ms ++ [m]) l in
  l_dtxs l' = Some (l_old_dtxs l') /\ l_drxs l' = Some (l_old_drxs l').
Proof.
  induction ms as [|s ms IH]; intros l; simpl.
  - split; reflexivity.
  - apply IH.
Qed.

Lemma after_pass_cfg cs n t port l m w :
  cfg_dict (after_pass cs n t port l m w) = cfg_dict w.
Proof. reflexivity. Qed.

Lemma after_passes_cfg cs n t port ms : forall l w,
  cfg_dict (after_passes cs n t port l ms w) = cfg_dict w.
Proof. induction ms as [|m ms IH]; intros l w; simpl; [reflexivity | rewrite IH; reflexivity]. Qed.


Lemma dict_get_set_same {V : Type} (d : dict V) (k : string) (v : V) :
  dict_get (dict_set d k v) k = Some v.
Proof.
  induction d as [|[k' v'] d IH]; simpl.
  - rewrite String.eqb_refl. reflexivity.
  - destruct (String.eqb k' k) eqn:E; simpl; rewrite E; auto.
Qed.

Lemma dict_get_set_other {V : Type} (d : dict V) (k k0 : string) (v : V) :
  k <> k0 -> dict_get (dict_set d k v) k0 = dict_get d k0.
Proof.
  intros Hne. induction d as [|[k' v'] d IH]; simpl.
  - destruct (String.eqb_spec k k0); [contradiction | reflexivity].
  - destruct (String.eqb_spec k' k) as [->|Hk]; simpl.
    + destruct (String.eqb_spec k k0); [contradiction | reflexivity].
    + destruct (String.eqb_spec k' k0); auto.
Qed.

(** The refinement stage, run on the measurements [pre ++ [m]]. *)
Lemma refine_stage_run cs error n_samples t_samples port pre m rest w :
  error < lit_1e10 ->
  skew_script w = pre ++ m :: rest ->
  Forall (fun s => error < Qabs (s * lit_1e12)) pre ->
  (List.length pre < times)%nat ->
  (Qabs (m * lit_1e12) <= error \/ (S (List.length pre) = times)%nat) ->
  (List.length pre < locks (track_script w))%nat ->
  refine_stage cs error n_samples t_samples port w
  = Ret tt
      (store_delays (c_key cs)
         (dtxs_after (coarse_delays cs) (pre ++ [m]),
          drxs_after (coarse_delays cs) (pre ++ [m]))
         (after_passes cs n_samples t_samples port (first_locals cs) (pre ++ [m]) w)).
Proof.
  intros He Hs Hpre Hn Hend Hl. unfold refine_stage.
  erewrite bind_Ret
    by (apply (refine_loop_run cs error n_samples t_samples port pre m rest);
        simpl; auto).
  fold (first_locals cs).
  destruct (bound_after_pass pre m (first_locals cs)) as [Hd Hr].
  simpl in Hd, Hr. rewrite Hd, Hr. simpl local. steps.
  rewrite old_dtxs_fold, old_drxs_fold. reflexivity.
Qed.




(** ** The trace only grows *)

Lemma extends_set_cfg c w : extends w (set_cfg c w).
Proof. apply extends_same_trace. reflexivity. Qed.

Lemma respects_extends_bind {A B : Type} (m : M A) (k : A -> M B) :
  respects extends m -> (forall a, respects extends (k a)) ->
  respects extends (bind m k).
Proof. apply respects_bind. exact extends_trans. Qed.

Lemma respects_extends_mean_time_interval i n t :
  respects extends (mean_time_interval i n t).
Proof.
  intros w. unfold mean_time_interval. destruct (skew_script w); simpl.
  - apply extends_refl.
  - exists [EvMeanTimeInterval i n t q]. reflexivity.
Qed.

Lemma respects_extends_refine_body cs n t port l :
  respects extends (refine_body cs n t port l).
Proof.
  unfold refine_body.
  apply respects_extends_bind.
  { apply respects_wait_trackphase;
      [ exact extends_refl | exact extends_trans | exact extends_emit
      | intros; apply extends_same_trace; reflexivity ]. }
  intros _. apply respects_extends_bind; [apply respects_extends_mean_time_interval|].
  intros m.
  repeat (apply respects_extends_bind;
          [apply respects_do; exact extends_emit | intros _]).
  apply respects_ret. exact extends_refl.
Qed.

Lemma respects_extends_refine_loop cs error n t port :
  forall gas l, respects extends (refine_loop gas cs error n t port l).
Proof.
  induction gas as [|gas IH]; intros l; simpl;
    destruct (Qgt_bool (Qabs (l_mean_skew l)) error && (l_i l <? times)%nat);
    try (apply respects_ret; exact extends_refl).
  - intros w. apply extends_refl.
  - apply respects_extends_bind; [apply respects_extends_refine_body | exact IH].
Qed.

(** C9. After a completed coarse stage: (1) for [error] below the sentinel
    1e10 the loop body runs at least once, whatever the skew - given a lock
    and a measurement [m], the trace of the call continues with the polls
    of the wait, the measurement, and the SFP rewrite with the delays
    updated by [m]; (2) for [error >= 1e10] the call ends in
    [UnboundLocalError] in the very world the coarse stage left: nothing
    was measured and no [port_delay] entry was written. *)
Theorem sentinel_first_pass :
  forall (self : instance) (error : Q) (n_samples t_samples port : Z)
         (sfp : string) (w : world) (cs : coarse) (w1 : world),
    coarse_stage self n_samples t_samples port sfp w = Ret cs w1 ->
    (error < lit_1e10 ->
     forall m rest,
       (1 <= locks (track_script w1))%nat ->
       skew_script w1 = m :: rest ->
       exists later,
         trace (world_of (calibrate_device_port self error n_samples t_samples port sfp w))
         = trace w1 ++ wait_events (c_slave cs) (track_script w1)
             ++ pass_events cs n_samples t_samples port (first_locals cs) m
             ++ later)
    /\
    (lit_1e10 <= error ->
     calibrate_device_port self error n_samples t_samples port sfp w
     = Raise UnboundLocalError w1
     /\ skew_script w1 = skew_script w
     /\ cfg_dict w1 = cfg_dict w).
Proof.
  intros self error n t port sfp w cs w1 Hc. split.
  - intros He m rest Hl Hs.
    unfold calibrate_device_port. erewrite bind_Ret by exact Hc.
    unfold refine_stage. fold (first_locals cs).
    change times with (S 9) at 1.
    rewrite refine_loop_enter
      by (change (l_mean_skew (first_locals cs)) with lit_1e10;
          rewrite (Qgt_bool_true (Qabs lit_1e10) error He); reflexivity).
    rewrite bind_assoc.
    erewrite bind_Ret by (eapply refine_body_ok; eauto).
    match goal with
    | |- context [world_of (bind ?m ?k ?w0)] =>
        assert (Hx : extends w0 (world_of (bind m k w0)))
    end.
    { apply respects_extends_bind; [apply respects_extends_refine_loop|].
      intros l.
      apply respects_extends_bind; [apply respects_local; exact extends_refl|].
      intros dtxs.
      apply respects_extends_bind; [apply respects_local; exact extends_refl|].
      intros drxs.
      apply respects_extends_bind; [apply respects_get_cfg; exact extends_refl|].
      intros c w'. apply extends_set_cfg. }
    destruct Hx as [later Hx]. exists later. rewrite Hx.
    unfold after_pass, after_wait. simpl. rewrite <- !app_assoc. reflexivity.
  - intros He.
    pose proof (coarse_stage_quiet self n t port sfp w) as [Hq1 Hq2].
    rewrite Hc in Hq1, Hq2. simpl in Hq1, Hq2.
    split; [|split; assumption].
    unfold calibrate_device_port. erewrite bind_Ret by exact Hc.
    unfold refine_stage.
    erewrite bind_Ret.
    2:{ apply refine_loop_exit. simpl l_mean_skew.
        rewrite (Qgt_bool_false (Qabs lit_1e10) error He). reflexivity. }
    reflexivity.
Qed.

Lemma sentinel_first_pass_witness :
  exists cs w1,
    coarse_stage operator 2 5 1 "blue" calibrating = Ret cs w1
    /\ (exists later,
          trace (world_of (calibrate_device_port operator (5000 # 1) 2 5 1 "blue" calibrating))
          = trace w1 ++ wait_events (c_slave cs) (track_script w1)
              ++ pass_events cs 2 5 1 (first_locals cs) (3 # 1000000000)
              ++ later)
    /\ calibrate_device_port operator lit_1e10 2 5 1 "blue" calibrating
       = Raise UnboundLocalError w1.
Proof.
  eexists. eexists. split; [vm_compute; reflexivity|].
  match goal with
  | |- (exists later, trace _ = trace ?w1 ++ wait_events (c_slave ?cs) _ ++ _) /\ _ =>
      assert (Hc : coarse_stage operator 2 5 1 "blue" calibrating = Ret cs w1)
        by (vm_compute; reflexivity);
      destruct (sentinel_first_pass operator (5000 # 1) 2 5 1 "blue" calibrating cs w1 Hc)
        as [Ha _];
      destruct (sentinel_first_pass operator lit_1e10 2 5 1 "blue" calibrating cs w1 Hc)
        as [_ Hb]
  end.
  split.
  - eapply Ha; [reflexivity | vm_compute; lia | reflexivity].
  - apply Hb. unfold Qle. simpl. lia.
Defined.

(* ================================================================== *)
(** * [fiber_asymmetry] *)
(* ================================================================== *)

Lemma for_fibers_two instr slave n t sfp skew :
  for_fibers fibers instr slave n t sfp skew
  = (skew1 <- measure_fiber instr slave n t sfp skew ;;
     skew2 <- measure_fiber instr slave n t sfp skew1 ;;
     ret skew2).
Proof. reflexivity. Qed.

Lemma Qle_bool_false (a b : Q) : b < a -> Qle_bool a b = false.
Proof.
  intros H. destruct (Qle_bool a b) eqn:E; auto.
  apply Qle_bool_iff in E. exfalso. eapply Qlt_not_le; eauto.
Qed.

Lemma measure_fiber_prefix instr slave n t w m rest (k : Q -> M (list Q)) :
  (1 <= locks (track_script w))%nat ->
  skew_script w = m :: rest ->
  (input ;; input ;; sleep 1 ;; wait_trackphase slave ;;
   mean_skew <- mean_time_interval instr n t ;; k mean_skew) w
  = k m (after_measure instr slave n t m w).
Proof.
  intros Hl Hs. steps.
  erewrite bind_Ret by (apply wait_trackphase_ok; exact Hl).
  erewrite bind_Ret
    by (unfold mean_time_interval, after_wait; simpl; rewrite Hs; reflexivity).
  unfold after_measure, after_wait. simpl. rewrite Hs. reflexivity.
Qed.

(** A sign-corrected skew at or above 1e-6 s is rejected. *)
Lemma measure_fiber_reject instr slave n t sfp skew w m rest :
  (1 <= locks (track_script w))%nat ->
  skew_script w = m :: rest ->
  lit_1e_6 <= signed_skew sfp m ->
  measure_fiber instr slave n t sfp skew w
  = Raise MeasuringError (after_measure instr slave n t m w).
Proof.
  intros Hl Hs Hm. unfold measure_fiber.
  rewrite (measure_fiber_prefix instr slave n t w m rest) by assumption.
  apply Qle_bool_iff in Hm. rewrite Hm. reflexivity.
Qed.

(** A sign-corrected skew below 1e-6 s is appended to [skew]. *)
Lemma measure_fiber_accept instr slave n t sfp skew w m rest :
  (1 <= locks (track_script w))%nat ->
  skew_script w = m :: rest ->
  signed_skew sfp m < lit_1e_6 ->
  measure_fiber instr slave n t sfp skew w
  = Ret (skew ++ [signed_skew sfp m]) (after_measure instr slave n t m w).
Proof.
  intros Hl Hs Hm. unfold measure_fiber.
  rewrite (measure_fiber_prefix instr slave n t w m rest) by assumption.
  rewrite (Qle_bool_false _ _ Hm). reflexivity.
Qed.

Lemma locks_after_measure instr slave n t m w :
  (1 <= locks (track_script w))%nat ->
  S (locks (track_script (after_measure instr slave n t m w))) = locks (track_script w).
Proof. intros H. simpl. apply locks_after_lock. exact H. Qed.

(** The commands that precede the loop over the fibres. *)
Lemma fiber_asymmetry_setup self n t port sfp w master slave more instr :
  devices_of self w = master :: slave :: more ->
  instr_of self = Some instr ->
  ~ cfg_delta1 (cfg_dict w) == 0 ->
  exists w0,
    fiber_asymmetry self n t port sfp w
    = (skew <- for_fibers fibers instr slave n t sfp [] ;;
       derive_alpha_n sfp port skew) w0
    /\ cfg_dict w0 = cfg_dict w
    /\ skew_script w0 = skew_script w
    /\ track_script w0 = track_script w.
Proof.
  intros Hd Hi Hl. unfold fiber_asymmetry.
  rewrite Hd, Hi, (Qeq_bool_false _ _ Hl). simpl Nat.ltb. cbv iota.
  steps. eexists. split; [reflexivity|]. repeat split.
Qed.

(** C1 (as amended: the test is on the sign-corrected value, not on the
    magnitude).  When one of the two measurements, negated for a blue SFP
    and taken as read otherwise, is at or above 1e-6 s - exactly 1e-6
    included - and the earlier one (if any) was below, [fiber_asymmetry]
    raises [MeasuringError] and the record is left as it was. *)
Theorem skew_limit_on_signed_value :
  forall (self : instance) (n_samples t_samples port : Z) (sfp : string)
         (w : world) (master slave : device) (more : list device)
         (instr : instrument) (pre : list Q) (m : Q) (rest : list Q),
    devices_of self w = master :: slave :: more ->
    instr_of self = Some instr ->
    ~ cfg_delta1 (cfg_dict w) == 0 ->
    skew_script w = pre ++ m :: rest ->
    (List.length pre < 2)%nat ->
    Forall (fun s => signed_skew sfp s < lit_1e_6) pre ->
    lit_1e_6 <= signed_skew sfp m ->
    (List.length pre < locks (track_script w))%nat ->
    exists w',
      fiber_asymmetry self n_samples t_samples port sfp w = Raise MeasuringError w'
      /\ cfg_dict w' = cfg_dict w.
Proof.
  intros self n t port sfp w master slave more instr pre m rest
         Hd Hi Hl Hs Hn Hpre Hm Hlk.
  destruct (fiber_asymmetry_setup self n t port sfp w master slave more instr Hd Hi Hl)
    as (w0 & -> & Hc0 & Hs0 & Ht0).
  rewrite <- Ht0 in Hlk. rewrite <- Hs0 in Hs. rewrite <- Hc0.
  rewrite for_fibers_two, !bind_assoc.
  destruct pre as [|s [|s' pre]]; cbn [List.length app] in *; [| |lia].
  - eexists. split.
    + apply bind_Raise. eapply measure_fiber_reject; eauto.
    + reflexivity.
  - inversion Hpre as [|? ? Hs1 _]; subst.
    eexists. split.
    + erewrite bind_Ret by (eapply measure_fiber_accept; eauto; lia).
      rewrite bind_assoc.
      apply bind_Raise. eapply measure_fiber_reject; eauto.
      * pose proof (locks_after_measure instr slave n t s w0). lia.
      * change (skew_script (after_measure instr slave n t s w0))
          with (tl (skew_script w0)).
        rewrite Hs. reflexivity.
    + reflexivity.
Qed.

(** A violet SFP reading exactly 1e-6 s on the second fibre. *)
Lemma skew_limit_on_signed_value_witness :
  exists w',
    fiber_asymmetry operator 10 5 1 "violet"
      (measuring [1 # 10000000000; 1 # 1000000]) = Raise MeasuringError w'
    /\ cfg_dict w' = cfg_dict (measuring [1 # 10000000000; 1 # 1000000]).
Proof.
  apply (skew_limit_on_signed_value operator 10 5 1 "violet"
           (measuring [1 # 10000000000; 1 # 1000000])
           dev_master dev_slave [] counter [1 # 10000000000] (1 # 1000000) []).
  - reflexivity.
  - reflexivity.
  - discriminate.
  - reflexivity.
  - simpl. lia.
  - repeat constructor.
  - vm_compute. discriminate.
  - vm_compute. lia.
Defined.

(** C1, as stated, fails: skews of magnitude 2e-6 s, above the limit, are
    accepted when their sign-corrected value is negative - read as
    -2e-6 s with a violet SFP, or as +2e-6 s with a blue one - and a
    coefficient is stored from them. *)
Lemma skew_limit_counterexample :
  lit_1e_6 <= Qabs (-2 # 1000000)
  /\ (exists w',
        fiber_asymmetry operator 10 5 1 "violet"
          (measuring [-2 # 1000000; -2 # 1000000]) = Ret tt w'
        /\ dict_mem (cfg_fiber_asymmetry (cfg_dict w')) "violet-wr1" = true)
  /\ lit_1e_6 <= Qabs (2 # 1000000)
  /\ (exists w',
        fiber_asymmetry operator 10 5 1 "blue"
          (measuring [2 # 1000000; 2 # 1000000]) = Ret tt w'
        /\ dict_mem (cfg_fiber_asymmetry (cfg_dict w')) "blue-wr1" = true).
Proof.
  split; [vm_compute; discriminate|].
  split; [eexists; split; vm_compute; reflexivity|].
  split; [vm_compute; discriminate|].
  eexists; split; vm_compute; reflexivity.
Qed.





(* ================================================================== *)
(** * Class-level attributes *)
(* ================================================================== *)

(** C10 (as amended: the device list is shared by the instances that have
    not rebound [devices]).  (1) A device added through an instance that
    uses the class-level list is seen by every instance that uses the
    class-level list.  (2) Constructing an instance, in any world, resets
    the one record all instances read: [delta1] and [delta2] are 0 again
    and both dictionaries are empty, whatever had been measured. *)
Theorem class_attributes_are_shared :
  forall (a b : instance) (name p0 p1 : string) (ps : list string)
         (class_ : string) (w : world),
    dict_get (wr_modules w) ("wr_devices." ++ name)%string = Some class_ ->
    own_devices a = None ->
    own_devices b = None ->
    (exists a' w',
       add_wr_device a name (p0 :: p1 :: ps) w = Ret a' w'
       /\ devices_of b w' = devices_of b w ++ [mkDevice class_ p0 p1]
       /\ devices_of a' w' = devices_of b w'
       /\ cfg_dict w' = cfg_dict w)
    /\ (exists c w',
          init w = Ret c w'
          /\ cfg_dict w' = empty_cfg
          /\ cfg_delta1 (cfg_dict w') = 0
          /\ cfg_delta2 (cfg_dict w') = 0
          /\ cls_devices w' = cls_devices w).
Proof.
  intros a b name p0 p1 ps class_ w Hm Ha Hb. split.
  - unfold add_wr_device. rewrite Hm. steps.
    unfold devices_append, devices_of. rewrite Ha, Hb.
    do 2 eexists. split; [reflexivity|]. simpl. rewrite Ha. repeat split.
  - do 2 eexists. split; [reflexivity|]. repeat split.
Qed.

Lemma class_attributes_are_shared_witness :
  (exists a' w',
     add_wr_device operator "wr_len" ["serial"; "/dev/ttyUSB0"] (with_modules calibrating)
     = Ret a' w'
     /\ devices_of (mkInstance None None) w'
        = devices_of (mkInstance None None) (with_modules calibrating)
          ++ [mkDevice "WR_LEN" "serial" "/dev/ttyUSB0"]
     /\ devices_of a' w' = devices_of (mkInstance None None) w'
     /\ cfg_dict w' = cfg_dict (with_modules calibrating))
  /\ (exists c w',
        init (with_modules calibrating) = Ret c w'
        /\ cfg_dict w' = empty_cfg
        /\ cfg_delta1 (cfg_dict w') = 0
        /\ cfg_delta2 (cfg_dict w') = 0
        /\ cls_devices w' = cls_devices (with_modules calibrating)).
Proof.
  apply (class_attributes_are_shared operator (mkInstance None None)
           "wr_len" "serial" "/dev/ttyUSB0" [] "WR_LEN" (with_modules calibrating));
    reflexivity.
Defined.

(** C10, as stated, fails for the device list: once an instance has run
    [remove_wr_devices], [self.devices = []] has given it a list of its
    own, and a device added through another instance does not reach it. *)
Lemma class_attributes_counterexample :
  exists a b w',
    remove_then_add (with_modules unmeasured) = Ret (a, b) w'
    /\ In (mkDevice "WR_LEN" "serial" "/dev/ttyUSB0") (devices_of b w')
    /\ devices_of a w' = [].
Proof.
  do 3 eexists. split; [vm_compute; reflexivity|].
  split; [|reflexivity].
  simpl. auto.
Qed.

(* ================================================================== *)
(** * Reading a record file *)
(* ================================================================== *)

(** C3. The session holds entries for ["blue-wr1"]; the file [other.cfg]
    is well formed and has entries for ["violet-wr2"] only.  After a
    successful [read_config] the entries for ["blue-wr1"] are still there,
    next to the ones of the file: the load merges, key by key. *)
Theorem read_config_keeps_absent_keys :
  dict_keys (cfg_fiber_asymmetry (cfg_dict holding_blue)) = ["blue-wr1"]
  /\ exists w',
      read_config operator "other.cfg" holding_blue = Ret tt w'
      /\ cfg_fiber_asymmetry (cfg_dict w')
         = [("blue-wr1", 5 # 1); ("violet-wr2", 7 # 1)]
      /\ cfg_port_delay (cfg_dict w')
         = [("blue-wr1", (1 # 1, 2 # 1)); ("violet-wr2", (3 # 1, 4 # 1))].
Proof.
  split; [reflexivity|].
  eexists. split; [vm_compute; reflexivity|].
  split; reflexivity.
Qed.

(** ** Malformed tokens *)











(* ================================================================== *)
(** * Strings: splitting and stripping *)
(* ================================================================== *)


Lemma string_forall_app p (a b : string) :
  string_forall p (a ++ b)%string = string_forall p a && string_forall p b.
Proof.
  induction a as [|x a IH]; simpl; [reflexivity|].
  rewrite IH. apply andb_assoc.
Qed.

Lemma string_forall_impl (p q : ascii -> bool) (s : string) :
  (forall c, p c = true -> q c = true) ->
  string_forall p s = true -> string_forall q s = true.
Proof.
  intros Hpq. induction s as [|x s IH]; simpl; [reflexivity|].
  intros H. apply andb_true_iff in H. destruct H as [H1 H2].
  rewrite (Hpq _ H1), (IH H2). reflexivity.
Qed.











(* ================================================================== *)
(** * Numbers as text: [format_int], [format_1f] and [float] *)
(* ================================================================== *)

Lemma digits_are_digits (d : Decimal.uint) :
  string_forall is_digit (NilEmpty.string_of_uint d) = true.
Proof. induction d; simpl; auto. Qed.


Lemma is_digit_num c : is_digit c = true -> num_char c = true.
Proof. intros H. unfold num_char. rewrite H. reflexivity. Qed.

(** A character that is no number character differs from all of them. *)
Lemma num_char_is_not sep c :
  num_char sep = false -> num_char c = true -> is_not sep c = true.
Proof.
  intros Hs Hc. unfold is_not.
  destruct (Ascii.eqb_spec c sep) as [->|_]; [congruence | reflexivity].
Qed.

Lemma is_digit_is_not sep c :
  is_digit sep = false -> is_digit c = true -> is_not sep c = true.
Proof.
  intros Hs Hc. unfold is_not.
  destruct (Ascii.eqb_spec c sep) as [->|_]; [congruence | reflexivity].
Qed.




Lemma format_int_text (z : Z) :
  format_int z
  = ((if (z <? 0)%Z then "-" else "") ++ NilEmpty.string_of_uint (digits_of z))%string.
Proof.
  destruct z as [|p|p]; simpl; [reflexivity| |];
    unfold format_int; simpl; unfold NilZero.string_of_uint;
    pose proof (DecimalPos.Unsigned.to_uint_nonnil p) as Hn;
    destruct (Pos.to_uint p); try reflexivity; contradiction.
Qed.



(** The text of a formatted int: number characters only, at least one. *)
Lemma format_int_chars (z : Z) : string_forall num_char (format_int z) = true.
Proof.
  rewrite format_int_text, string_forall_app. apply andb_true_iff. split.
  - destruct (z <? 0)%Z; reflexivity.
  - apply (string_forall_impl is_digit); [exact is_digit_num | apply digits_are_digits].
Qed.













(* ================================================================== *)
(** * Reading back what [write_config] wrote *)
(* ================================================================== *)

















(** ** Storing the entries of a dictionary into itself *)




(** ** The lines of a written file *)








(** ** Line by line *)












(** The keys of the data model are plain. *)
Lemma record_key_plain (k : string) : record_key k -> plain_key k = true.
Proof.
  intros (sfp & port & Hs & ->). unfold plain_key, format_key.
  assert (Hp : string_forall (fun a => is_not " " a && is_not ":" a && is_not LF a)
                 (format_int port) = true).
  { apply (string_forall_impl num_char); [|apply format_int_chars].
    intros c Hc.
    rewrite !(fun sep H => num_char_is_not sep c H Hc) by reflexivity. reflexivity. }
  destruct Hs as [-> | ->]; rewrite !string_forall_app, Hp; reflexivity.
Qed.



(* ================================================================== *)
(** * [fiber_latency] *)
(* ================================================================== *)




(** X1. With fewer than two devices [fiber_latency] raises
    [WRDeviceNeeded] in the world it was called in: nothing was erased,
    written or measured. *)
Theorem fiber_latency_needs_two_devices :
  forall (self : instance) (n_samples t_samples : Z) (w : world),
    (List.length (devices_of self w) < 2)%nat ->
    fiber_latency self n_samples t_samples w = Raise WRDeviceNeeded w.
Proof.
  intros self n t w H. unfold fiber_latency.
  destruct (Nat.ltb_spec (List.length (devices_of self w)) 2); [reflexivity | lia].
Qed.

Lemma fiber_latency_needs_two_devices_witness :
  fiber_latency operator 10 5 latency_only = Raise WRDeviceNeeded latency_only.
Proof.
  apply (fiber_latency_needs_two_devices operator 10 5 latency_only).
  simpl. lia.
Defined.

(** The commands that precede the loop over the fibres. *)
Lemma fiber_latency_setup self n t w master slave more :
  devices_of self w = master :: slave :: more ->
  exists w0,
    fiber_latency self n t w
    = (dicts <- latency_fibers fibers slave n t ([], []) ;;
       delay_mm1 <- delay_mm dicts "f1" ;;
       delay_mm2 <- delay_mm dicts "f2" ;;
       delay_mm3 <- delay_mm dicts "f1+f2" ;;
       c <- get_cfg ;;
       put_cfg (mkCfg (delay_mm3 - delay_mm2) (cfg_delta2 c)
                      (cfg_fiber_asymmetry c) (cfg_port_delay c)) ;;
       c <- get_cfg ;;
       put_cfg (mkCfg (cfg_delta1 c) (delay_mm3 - delay_mm1)
                      (cfg_fiber_asymmetry c) (cfg_port_delay c))) w0
    /\ cfg_dict w0 = cfg_dict w
    /\ track_script w0 = track_script w
    /\ rtt_script w0 = rtt_script w
    /\ phy_script w0 = phy_script w
    /\ skew_script w0 = skew_script w.
Proof.
  intros Hd. unfold fiber_latency. rewrite Hd. simpl Nat.ltb. cbv iota.
  steps. eexists. split; [reflexivity|]. repeat split.
Qed.



(** X3. [fiber_latency] with [n_samples = 0]: the devices are configured
    and the first lock is awaited, then [mean_rtt /= n_samples] raises
    [ZeroDivisionError]; no round-trip time or physical delay was read and
    the record is as before. *)
Theorem fiber_latency_zero_samples :
  forall (self : instance) (t_samples : Z) (w : world)
         (master slave : device) (more : list device),
    devices_of self w = master :: slave :: more ->
    (1 <= locks (track_script w))%nat ->
    exists w',
      fiber_latency self 0 t_samples w = Raise ZeroDivisionError w'
      /\ cfg_dict w' = cfg_dict w
      /\ rtt_script w' = rtt_script w
      /\ phy_script w' = phy_script w.
Proof.
  intros self t w master slave more Hd Hl.
  destruct (fiber_latency_setup self 0 t w master slave more Hd)
    as (w0 & -> & Hc0 & Ht0 & Hr0 & Hp0 & _).
  rewrite <- Ht0 in Hl. rewrite <- Hc0, <- Hr0, <- Hp0.
  cbn [latency_fibers fibers]. unfold latency_pass. rewrite !bind_assoc.
  do 2 (erewrite bind_Ret by reflexivity; rewrite ?bind_assoc).
  erewrite bind_Ret by (apply wait_trackphase_ok; exact Hl).
  rewrite ?bind_assoc.
  erewrite bind_Ret by reflexivity. rewrite ?bind_assoc.
  eexists. split; [apply bind_Raise; reflexivity|].
  repeat split.
Qed.

Lemma fiber_latency_zero_samples_witness :
  exists w',
    fiber_latency operator 0 5 linking = Raise ZeroDivisionError w'
    /\ cfg_dict w' = cfg_dict linking
    /\ rtt_script w' = rtt_script linking
    /\ phy_script w' = phy_script linking.
Proof.
  apply (fiber_latency_zero_samples operator 5 linking dev_master dev_slave []).
  - reflexivity.
  - vm_compute. lia.
Defined.

(* ================================================================== *)
(** * More on the preconditions and on [fiber_asymmetry] *)
(* ================================================================== *)

(** X4. The order of the checks: the number of devices comes first and
    the instrument second, before the fibre latency is looked at.  Too few
    devices give [WRDeviceNeeded] whether or not an instrument is there;
    enough devices without an instrument give
    [MeasurementInstrumentNeeded] whatever the record holds.  In each case
    the world is untouched. *)
Theorem estimator_check_order :
  forall (self : instance) (error : Q) (n_samples t_samples port : Z)
         (sfp : string) (w : world),
    ((List.length (devices_of self w) < 2)%nat ->
     fiber_asymmetry self n_samples t_samples port sfp w = Raise WRDeviceNeeded w)
    /\ ((2 <= List.length (devices_of self w))%nat -> instr_of self = None ->
        fiber_asymmetry self n_samples t_samples port sfp w
        = Raise MeasurementInstrumentNeeded w)
    /\ ((List.length (devices_of self w) < 1)%nat ->
        calibrate_device_port self error n_samples t_samples port sfp w
        = Raise WRDeviceNeeded w)
    /\ ((1 <= List.length (devices_of self w))%nat -> instr_of self = None ->
        calibrate_device_port self error n_samples t_samples port sfp w
        = Raise MeasurementInstrumentNeeded w).
Proof.
  intros self error n t port sfp w. repeat split.
  - intros H. unfold fiber_asymmetry.
    destruct (Nat.ltb_spec (List.length (devices_of self w)) 2); [reflexivity | lia].
  - intros H Hi. unfold fiber_asymmetry.
    destruct (Nat.ltb_spec (List.length (devices_of self w)) 2); [lia|].
    rewrite Hi. reflexivity.
  - intros H. unfold calibrate_device_port. apply bind_Raise. unfold coarse_stage.
    destruct (Nat.ltb_spec (List.length (devices_of self w)) 1); [reflexivity | lia].
  - intros H Hi. unfold calibrate_device_port. apply bind_Raise. unfold coarse_stage.
    destruct (Nat.ltb_spec (List.length (devices_of self w)) 1); [lia|].
    rewrite Hi. reflexivity.
Qed.

Lemma estimator_check_order_witness :
  fiber_asymmetry operator 10 5 1 "blue" latency_only = Raise WRDeviceNeeded latency_only
  /\ fiber_asymmetry (mkInstance None None) 10 5 1 "blue" unmeasured
     = Raise MeasurementInstrumentNeeded unmeasured
  /\ calibrate_device_port operator (100 # 1) 10 5 1 "blue" damaged_files
     = Raise WRDeviceNeeded damaged_files
  /\ calibrate_device_port (mkInstance None None) (100 # 1) 10 5 1 "blue" unmeasured
     = Raise MeasurementInstrumentNeeded unmeasured.
Proof.
  destruct (estimator_check_order operator (100 # 1) 10 5 1 "blue" latency_only)
    as (H1 & _).
  destruct (estimator_check_order (mkInstance None None) (100 # 1) 10 5 1 "blue" unmeasured)
    as (_ & H2 & _ & H4).
  destruct (estimator_check_order operator (100 # 1) 10 5 1 "blue" damaged_files)
    as (_ & _ & H3 & _).
  split; [apply H1; simpl; lia|].
  split; [apply H2; [simpl; lia | reflexivity]|].
  split; [apply H3; simpl; lia|].
  apply H4; [simpl; lia | reflexivity].
Defined.







(** ** The commands of the set-up *)

Lemma respects_extends_measure_fiber instr slave n t sfp skew :
  respects extends (measure_fiber instr slave n t sfp skew).
Proof.
  unfold measure_fiber.
  repeat (apply respects_extends_bind;
          [apply respects_do; exact extends_emit | intros _]).
  apply respects_extends_bind.
  { apply respects_wait_trackphase;
      [ exact extends_refl | exact extends_trans | exact extends_emit
      | intros; apply extends_same_trace; reflexivity ]. }
  intros _. apply respects_extends_bind; [apply respects_extends_mean_time_interval|].
  intros m. destruct (Qle_bool lit_1e_6 (signed_skew sfp m)).
  - apply respects_raise. exact extends_refl.
  - apply respects_ret. exact extends_refl.
Qed.

Lemma respects_extends_for_fibers instr slave n t sfp : forall l skew,
  respects extends (for_fibers l instr slave n t sfp skew).
Proof.
  induction l as [|fiber l IH]; intros skew; simpl.
  - apply respects_ret. exact extends_refl.
  - destruct (fiber =? "f1+f2")%string; [apply IH|].
    apply respects_extends_bind; [apply respects_extends_measure_fiber | exact IH].
Qed.

Lemma respects_extends_put_cfg c : respects extends (put_cfg c).
Proof. intros w. apply extends_set_cfg. Qed.

Lemma respects_extends_derive_alpha_n sfp port skew :
  respects extends (derive_alpha_n sfp port skew).
Proof.
  unfold derive_alpha_n.
  repeat first
    [ apply respects_extends_bind; [|intro]
    | apply respects_index; exact extends_refl
    | apply respects_get_cfg; exact extends_refl
    | apply respects_pydiv; exact extends_refl
    | apply respects_extends_put_cfg ].
Qed.

Lemma fiber_asymmetry_setup_world self n t port sfp w master slave more instr :
  devices_of self w = master :: slave :: more ->
  instr_of self = Some instr ->
  ~ cfg_delta1 (cfg_dict w) == 0 ->
  fiber_asymmetry self n t port sfp w
  = (skew <- for_fibers fibers instr slave n t sfp [] ;;
     derive_alpha_n sfp port skew)
      (emits (asymmetry_setup_events master slave port sfp) w).
Proof.
  intros Hd Hi Hl. unfold fiber_asymmetry.
  rewrite Hd, Hi, (Qeq_bool_false _ _ Hl).
  change (List.length (master :: slave :: more) <? 2)%nat with false. cbv iota.
  steps. f_equal.
  apply world_ext; simpl; try reflexivity.
  rewrite <- !app_assoc. reflexivity.
Qed.

(** X7. Once its three checks have passed, [fiber_asymmetry] first erases
    the SFP data base of master and slave, writes the serial of the SFP
    colour into the slave ([AXGE-1254-0531] for ["blue"], [AXGE-3454-0531]
    for any other [sfp]) and the opposite serial into the master, both for
    [port] with no delays, loads both data bases, and sets the roles -
    these eight commands, in this order, before anything else, whatever
    happens afterwards. *)
Theorem asymmetry_setup_commands :
  forall (self : instance) (n_samples t_samples port : Z) (sfp : string)
         (w : world) (master slave : device) (more : list device)
         (instr : instrument),
    devices_of self w = master :: slave :: more ->
    instr_of self = Some instr ->
    ~ cfg_delta1 (cfg_dict w) == 0 ->
    exists later,
      trace (world_of (fiber_asymmetry self n_samples t_samples port sfp w))
      = trace w ++ asymmetry_setup_events master slave port sfp ++ later.
Proof.
  intros self n t port sfp w master slave more instr Hd Hi Hl.
  rewrite (fiber_asymmetry_setup_world self n t port sfp w master slave more instr
             Hd Hi Hl).
  match goal with
  | |- context [world_of (bind ?m ?k ?w0)] =>
      assert (Hx : extends w0 (world_of (bind m k w0)))
  end.
  { apply respects_extends_bind; [apply respects_extends_for_fibers|].
    intros skew. apply respects_extends_derive_alpha_n. }
  destruct Hx as [later Hx]. exists later. rewrite Hx.
  simpl trace. rewrite <- app_assoc. reflexivity.
Qed.

Lemma asymmetry_setup_commands_witness :
  exists later,
    trace (world_of (fiber_asymmetry operator 10 5 3 "violet"
                       (measuring [1 # 10000000000; 3 # 10000000000])))
    = [] ++ [EvEraseSfp dev_master; EvEraseSfp dev_slave;
             EvWriteSfp dev_slave AXGE_3454 3 None;
             EvWriteSfp dev_master AXGE_1254 3 None;
             EvLoadSfp dev_master; EvLoadSfp dev_slave;
             EvSetSlaveport dev_slave 3; EvSetMaster dev_master] ++ later.
Proof.
  apply (asymmetry_setup_commands operator 10 5 3 "violet"
           (measuring [1 # 10000000000; 3 # 10000000000])
           dev_master dev_slave [] counter).
  - reflexivity.
  - reflexivity.
  - discriminate.
Defined.

(* ================================================================== *)
(** * More on [calibrate_device_port] *)
(* ================================================================== *)



(** X11. [calibrate_device_port] with [n_samples = 0]: the device is
    prepared and the lock awaited, then [mean_rtt /= n_samples] raises
    [ZeroDivisionError]; nothing was sampled or measured and the record is
    as before. *)
Theorem calibrate_zero_samples :
  forall (self : instance) (error : Q) (t_samples port : Z) (sfp : string)
         (w : world) (slave : device) (more : list device) (instr : instrument)
         (beta : Q),
    devices_of self w = slave :: more ->
    instr_of self = Some instr ->
    ~ cfg_delta1 (cfg_dict w) == 0 ->
    dict_get (cfg_fiber_asymmetry (cfg_dict w)) (format_key sfp port) = Some beta ->
    (1 <= locks (track_script w))%nat ->
    exists w',
      calibrate_device_port self error 0 t_samples port sfp w
      = Raise ZeroDivisionError w'
      /\ cfg_dict w' = cfg_dict w
      /\ rtt_script w' = rtt_script w
      /\ phy_script w' = phy_script w
      /\ skew_script w' = skew_script w.
Proof.
  intros self error t port sfp w slave more instr beta Hd Hi Hl Hb Hlk.
  unfold calibrate_device_port.
  cut (exists w',
         coarse_stage self 0 t port sfp w = Raise ZeroDivisionError w'
         /\ cfg_dict w' = cfg_dict w /\ rtt_script w' = rtt_script w
         /\ phy_script w' = phy_script w /\ skew_script w' = skew_script w).
  { intros (w' & Hr & Hrest). exists w'. split; [|exact Hrest].
    apply bind_Raise. exact Hr. }
  unfold coarse_stage. rewrite Hd, Hi, (Qeq_bool_false _ _ Hl).
  change (List.length (slave :: more) <? 1)%nat with false. cbv iota.
  unfold dict_mem. rewrite Hb. cbn [negb]. cbv iota.
  steps.
  erewrite bind_Ret by (unfold lookup; simpl; rewrite Hb; reflexivity).
  steps.
  erewrite bind_Ret by (apply wait_trackphase_ok; exact Hlk).
  erewrite bind_Ret by reflexivity.
  eexists. split; [apply bind_Raise; reflexivity|].
  repeat split.
Qed.

Lemma calibrate_zero_samples_witness :
  exists w',
    calibrate_device_port operator (50 # 1) 0 5 1 "blue" calibrating
    = Raise ZeroDivisionError w'
    /\ cfg_dict w' = cfg_dict calibrating
    /\ rtt_script w' = rtt_script calibrating
    /\ phy_script w' = phy_script calibrating
    /\ skew_script w' = skew_script calibrating.
Proof.
  apply (calibrate_zero_samples operator (50 # 1) 5 1 "blue" calibrating
           dev_slave [] counter (219902325555 # 1)).
  - reflexivity.
  - reflexivity.
  - discriminate.
  - reflexivity.
  - vm_compute. lia.
Defined.




(** X10. A successful [calibrate_device_port] changes one entry of the
    record and nothing else in it: [delta1], [delta2] and the
    fibre-asymmetry dictionary are as before, and so is the delay of every
    other key. *)
Theorem calibrate_touches_one_entry :
  forall (self : instance) (error : Q) (n_samples t_samples port : Z)
         (sfp : string) (w : world) (cs : coarse) (w1 : world)
         (pre : list Q) (m : Q) (rest : list Q),
    coarse_stage self n_samples t_samples port sfp w = Ret cs w1 ->
    error < lit_1e10 ->
    skew_script w1 = pre ++ m :: rest ->
    Forall (fun s => error < Qabs (s * lit_1e12)) pre ->
    (List.length pre < times)%nat ->
    (Qabs (m * lit_1e12) <= error \/ (S (List.length pre) = times)%nat) ->
    (List.length pre < locks (track_script w1))%nat ->
    exists w2,
      calibrate_device_port self error n_samples t_samples port sfp w = Ret tt w2
      /\ cfg_delta1 (cfg_dict w2) = cfg_delta1 (cfg_dict w)
      /\ cfg_delta2 (cfg_dict w2) = cfg_delta2 (cfg_dict w)
      /\ cfg_fiber_asymmetry (cfg_dict w2) = cfg_fiber_asymmetry (cfg_dict w)
      /\ forall k, k <> format_key sfp port ->
           dict_get (cfg_port_delay (cfg_dict w2)) k
           = dict_get (cfg_port_delay (cfg_dict w)) k.
Proof.
  intros self error n t port sfp w cs w1 pre m rest Hc He Hs Hpre Hn Hend Hl.
  pose proof (coarse_stage_quiet self n t port sfp w) as [Hq _].
  rewrite Hc in Hq. cbn [world_of] in Hq.
  eexists. split.
  - unfold calibrate_device_port. erewrite bind_Ret by exact Hc.
    apply (refine_stage_run cs error n t port pre m rest); assumption.
  - unfold store_delays. cbn [cfg_dict set_cfg cfg_delta1 cfg_delta2
                              cfg_fiber_asymmetry cfg_port_delay].
    rewrite after_passes_cfg, Hq.
    repeat split.
    intros k Hk. apply dict_get_set_other.
    rewrite (coarse_stage_key _ _ _ _ _ _ _ _ Hc). congruence.
Qed.

Lemma calibrate_touches_one_entry_witness :
  exists w2,
    calibrate_device_port operator (50 # 1) 2 5 1 "blue" calibrating = Ret tt w2
    /\ cfg_delta1 (cfg_dict w2) = cfg_delta1 (cfg_dict calibrating)
    /\ cfg_delta2 (cfg_dict w2) = cfg_delta2 (cfg_dict calibrating)
    /\ cfg_fiber_asymmetry (cfg_dict w2) = cfg_fiber_asymmetry (cfg_dict calibrating)
    /\ forall k, k <> format_key "blue" 1 ->
         dict_get (cfg_port_delay (cfg_dict w2)) k
         = dict_get (cfg_port_delay (cfg_dict calibrating)) k.
Proof.
  eapply (calibrate_touches_one_entry operator (50 # 1) 2 5 1 "blue" calibrating
            _ _ [3 # 1000000000; -1 # 1000000000] (1 # 100000000000)
            [5 # 1000000000]).
  - vm_compute. reflexivity.
  - reflexivity.
  - reflexivity.
  - repeat constructor.
  - vm_compute. lia.
  - left. vm_compute. discriminate.
  - vm_compute. lia.
Defined.

(* ================================================================== *)
(** * Session management *)
(* ================================================================== *)

Lemma close_all_ok (l : list device) : forall w,
  close_all l w = Ret tt (emits (map EvClose l) w).
Proof.
  induction l as [|d l IH]; intros w; simpl.
  - unfold ret. f_equal. apply world_ext; simpl; auto.
    rewrite app_nil_r. reflexivity.
  - erewrite bind_Ret by reflexivity. rewrite IH. f_equal.
    apply world_ext; simpl; try reflexivity.
    rewrite <- app_assoc. reflexivity.
Qed.

(** X12. [remove_wr_devices] always returns; it closes every device the
    instance sees, in order, and nothing else.  Afterwards the instance
    sees no device, so each estimator raises [WRDeviceNeeded] on it; but
    the class-level list is as long as before, so an instance that has
    not rebound [devices] still sees the devices just closed. *)
Theorem remove_wr_devices_closes_all :
  forall (self : instance) (w : world),
    exists self' w',
      remove_wr_devices self w = Ret self' w'
      /\ trace w' = trace w ++ map EvClose (devices_of self w)
      /\ devices_of self' w' = []
      /\ instr_of self' = instr_of self
      /\ cfg_dict w' = cfg_dict w
      /\ (forall n t, fiber_latency self' n t w' = Raise WRDeviceNeeded w')
      /\ (forall n t port sfp,
            fiber_asymmetry self' n t port sfp w' = Raise WRDeviceNeeded w')
      /\ (forall error n t port sfp,
            calibrate_device_port self' error n t port sfp w'
            = Raise WRDeviceNeeded w')
      /\ (forall other, own_devices other = None ->
            devices_of other w' = cls_devices w).
Proof.
  intros self w. unfold remove_wr_devices.
  erewrite bind_Ret by apply close_all_ok.
  do 2 eexists. split; [reflexivity|].
  repeat split.
  intros other Ho. unfold devices_of. rewrite Ho. reflexivity.
Qed.



(* ================================================================== *)
(** * More on [read_config] *)
(* ================================================================== *)

(** ** Only the record changes *)

Lemma only_record_refl w : only_record w w.
Proof. repeat split. Qed.

Lemma only_record_trans w1 w2 w3 :
  only_record w1 w2 -> only_record w2 w3 -> only_record w1 w3.
Proof. unfold only_record. intuition congruence. Qed.

Lemma respects_only_bind {A B : Type} (m : M A) (k : A -> M B) :
  respects only_record m -> (forall a, respects only_record (k a)) ->
  respects only_record (bind m k).
Proof. apply respects_bind. exact only_record_trans. Qed.

Lemma respects_only_put_cfg c : respects only_record (put_cfg c).
Proof. intros w. repeat split. Qed.

Lemma respects_only_float s : respects only_record (float s).
Proof.
  unfold float. destruct (float_of_string s).
  - apply respects_ret. exact only_record_refl.
  - apply respects_raise. exact only_record_refl.
Qed.

Lemma respects_only_last_of s : respects only_record (last_of s).
Proof.
  unfold last_of. destruct (last_char s).
  - apply respects_ret. exact only_record_refl.
  - apply respects_raise. exact only_record_refl.
Qed.

Ltac only_record_steps :=
  repeat first
    [ apply respects_only_bind; [|intro]
    | apply respects_index; exact only_record_refl
    | apply respects_get_cfg; exact only_record_refl
    | apply respects_ret; exact only_record_refl
    | apply respects_raise; exact only_record_refl
    | apply respects_only_put_cfg
    | apply respects_only_float
    | apply respects_only_last_of ].

Lemma respects_only_latency_line line : respects only_record (latency_line line).
Proof.
  unfold latency_line, set_delta1, set_delta2. only_record_steps.
Qed.

Lemma respects_only_asymmetry_tokens tokens :
  forall flag, respects only_record (asymmetry_tokens tokens flag).
Proof.
  induction tokens as [|i rest IH]; intros flag; cbn [asymmetry_tokens].
  - apply respects_ret. exact only_record_refl.
  - destruct (i =? nl)%string; [apply IH|].
    unfold set_asymmetry. only_record_steps. apply IH.
Qed.

Lemma respects_only_delay_tokens tokens :
  forall flag, respects only_record (delay_tokens tokens flag).
Proof.
  induction tokens as [|i rest IH]; intros flag; cbn [delay_tokens].
  - apply respects_ret. exact only_record_refl.
  - destruct (i =? nl)%string; [apply IH|].
    unfold set_port_delay. only_record_steps. apply IH.
Qed.

Lemma respects_only_read_line line flag : respects only_record (read_line line flag).
Proof.
  unfold read_line. destruct line as [|c r].
  - apply respects_raise. exact only_record_refl.
  - destruct (Ascii.eqb c "#"); [apply respects_ret; exact only_record_refl|].
    destruct (Ascii.eqb c "@"); [apply respects_ret; exact only_record_refl|].
    apply respects_only_bind.
    { destruct (flag =? 1)%nat;
        [apply respects_only_latency_line | apply respects_ret; exact only_record_refl]. }
    intros f1. apply respects_only_bind.
    { destruct (f1 =? 2)%nat;
        [apply respects_only_asymmetry_tokens | apply respects_ret; exact only_record_refl]. }
    intros f2. apply respects_only_bind.
    { destruct (f2 =? 3)%nat;
        [apply respects_only_delay_tokens | apply respects_ret; exact only_record_refl]. }
    intros f3. apply respects_ret. exact only_record_refl.
Qed.

Lemma respects_only_read_lines lines :
  forall flag, respects only_record (read_lines lines flag).
Proof.
  induction lines as [|line rest IH]; intros flag; cbn [read_lines].
  - apply respects_ret. exact only_record_refl.
  - apply respects_only_bind; [apply respects_only_read_line | exact IH].
Qed.

(** X15. Whatever the file holds and however the call ends - normally or
    in an exception half-way through the file - [read_config] changes
    nothing but the record: no device is commanded, no file is written,
    the device list is as before. *)
Theorem read_config_only_touches_record :
  forall (self : instance) (cfg_file : string) (w : world),
    only_record w (world_of (read_config self cfg_file w)).
Proof.
  intros self cfg_file w. unfold read_config.
  destruct (dict_get (fs w) cfg_file) as [text|].
  - revert w.
    match goal with
    | |- forall w, only_record w (world_of (?m w)) =>
        change (respects only_record m)
    end.
    apply respects_only_bind; [apply respects_only_read_lines|].
    intros _. apply respects_ret. exact only_record_refl.
  - apply only_record_refl.
Qed.

(** ** Lines that load nothing *)









(* ================================================================== *)
(** * Repeated round trips *)
(* ================================================================== *)










(* ================================================================== *)
(** * From [fiber_asymmetry] to [calibrate_device_port] *)
(* ================================================================== *)

Lemma keeps_setup_refl w : keeps_setup w w.
Proof. repeat split. Qed.

Lemma keeps_setup_trans w1 w2 w3 :
  keeps_setup w1 w2 -> keeps_setup w2 w3 -> keeps_setup w1 w3.
Proof. unfold keeps_setup. intuition congruence. Qed.

Lemma keeps_setup_emit e w : keeps_setup w (emit e w).
Proof. repeat split. Qed.

Lemma keeps_setup_track l w : keeps_setup w (set_track_script l w).
Proof. repeat split. Qed.

Lemma respects_keeps_bind {A B : Type} (m : M A) (k : A -> M B) :
  respects keeps_setup m -> (forall a, respects keeps_setup (k a)) ->
  respects keeps_setup (bind m k).
Proof. apply respects_bind. exact keeps_setup_trans. Qed.

Lemma respects_keeps_mean_time_interval i n t :
  respects keeps_setup (mean_time_interval i n t).
Proof.
  intros w. unfold mean_time_interval. destruct (skew_script w); repeat split.
Qed.

(** Storing a record with the same [delta1] and [delta2]. *)
Lemma respects_keeps_update (f : cfg -> cfg) :
  (forall c, cfg_delta1 (f c) = cfg_delta1 c /\ cfg_delta2 (f c) = cfg_delta2 c) ->
  respects keeps_setup (c <- get_cfg ;; put_cfg (f c)).
Proof.
  intros H w. destruct (H (cfg_dict w)) as [H1 H2].
  split; [reflexivity|]. split; assumption.
Qed.

Ltac keeps_setup_steps :=
  repeat first
    [ apply respects_keeps_update; intro; split; reflexivity
    | apply respects_keeps_bind; [|intro]
    | apply respects_ret; exact keeps_setup_refl
    | apply respects_raise; exact keeps_setup_refl
    | apply respects_index; exact keeps_setup_refl
    | apply respects_get_cfg; exact keeps_setup_refl
    | apply respects_pydiv; exact keeps_setup_refl
    | apply respects_do; exact keeps_setup_emit
    | apply respects_wait_trackphase;
        [ exact keeps_setup_refl | exact keeps_setup_trans
        | exact keeps_setup_emit | exact keeps_setup_track ]
    | apply respects_keeps_mean_time_interval ].

Lemma respects_keeps_measure_fiber instr slave n t sfp skew :
  respects keeps_setup (measure_fiber instr slave n t sfp skew).
Proof.
  unfold measure_fiber. keeps_setup_steps. cbv zeta.
  destruct (Qle_bool _ _).
  - apply respects_raise. exact keeps_setup_refl.
  - apply respects_ret. exact keeps_setup_refl.
Qed.

Lemma respects_keeps_for_fibers instr slave n t sfp : forall l skew,
  respects keeps_setup (for_fibers l instr slave n t sfp skew).
Proof.
  induction l as [|fiber l IH]; intros skew; simpl.
  - apply respects_ret. exact keeps_setup_refl.
  - destruct (fiber =? "f1+f2")%string; [apply IH|].
    apply respects_keeps_bind; [apply respects_keeps_measure_fiber | exact IH].
Qed.

Lemma respects_keeps_derive_alpha_n sfp port skew :
  respects keeps_setup (derive_alpha_n sfp port skew).
Proof. unfold derive_alpha_n. cbv zeta. keeps_setup_steps. Qed.

Lemma respects_keeps_fiber_asymmetry self n t port sfp :
  respects keeps_setup (fiber_asymmetry self n t port sfp).
Proof.
  intros w. unfold fiber_asymmetry.
  destruct (List.length (devices_of self w) <? 2)%nat; [apply keeps_setup_refl|].
  destruct (instr_of self) as [instr|]; [|apply keeps_setup_refl].
  destruct (Qeq_bool (cfg_delta1 (cfg_dict w)) 0); [apply keeps_setup_refl|].
  generalize (devices_of self w) as devs. intros devs. revert w.
  match goal with
  | |- forall w, keeps_setup w (world_of (?m w)) => change (respects keeps_setup m)
  end.
  cbv zeta.
  repeat first
    [ apply respects_keeps_for_fibers
    | apply respects_keeps_derive_alpha_n
    | apply respects_keeps_bind; [|intro]
    | apply respects_index; exact keeps_setup_refl
    | apply respects_do; exact keeps_setup_emit ].
Qed.

Lemma ensures_bind {A B : Type} (P : world -> Prop) (m : M A) (k : A -> M B) :
  (forall a, ensures P (k a)) -> ensures P (bind m k).
Proof.
  intros Hk w b w'. unfold bind.
  destruct (m w) as [a w1| |]; try discriminate.
  apply Hk.
Qed.

(** When [derive_alpha_n] returns, the key has a coefficient. *)
Lemma ensures_derive_alpha_n sfp port skew :
  ensures (fun w' => dict_mem (cfg_fiber_asymmetry (cfg_dict w')) (format_key sfp port)
                     = true)
          (derive_alpha_n sfp port skew).
Proof.
  unfold derive_alpha_n. cbv zeta.
  repeat (apply ensures_bind; intro).
  intros w u w' H. injection H as H. subst w'.
  unfold dict_mem. cbn [cfg_dict set_cfg cfg_fiber_asymmetry].
  rewrite dict_get_set_same. reflexivity.
Qed.

Lemma ensures_fiber_asymmetry self n t port sfp :
  ensures (fun w' => dict_mem (cfg_fiber_asymmetry (cfg_dict w')) (format_key sfp port)
                     = true)
          (fiber_asymmetry self n t port sfp).
Proof.
  intros w u w'. unfold fiber_asymmetry.
  destruct (List.length (devices_of self w) <? 2)%nat; [discriminate|].
  destruct (instr_of self) as [instr|]; [|discriminate].
  destruct (Qeq_bool (cfg_delta1 (cfg_dict w)) 0); [discriminate|].
  revert u w'. generalize (devices_of self w) as devs. intros devs. revert w.
  match goal with
  | |- forall w u w', ?m w = Ret u w' -> _ =>
      change (ensures (fun w' => dict_mem (cfg_fiber_asymmetry (cfg_dict w'))
                                   (format_key sfp port) = true) m)
  end.
  cbv zeta.
  repeat first [apply ensures_derive_alpha_n | apply ensures_bind; intro].
Qed.

Ltac extends_side :=
  first [ exact extends_refl | exact extends_trans | exact extends_emit
        | intros; apply extends_same_trace; reflexivity ].

Ltac extends_steps :=
  repeat first
    [ apply respects_extends_refine_loop
    | apply respects_extends_bind; [|intro]
    | apply respects_ret; exact extends_refl
    | apply respects_index; exact extends_refl
    | apply respects_get_cfg; exact extends_refl
    | apply respects_lookup; exact extends_refl
    | apply respects_pydiv; exact extends_refl
    | apply respects_local; exact extends_refl
    | apply respects_do; exact extends_emit
    | apply respects_wait_trackphase; extends_side
    | apply respects_sample_rtt; extends_side
    | apply respects_get_phy_delays; extends_side
    | apply respects_extends_put_cfg ].

(** Past its four checks the coarse stage erases the SFP database of the
    first device and writes it with delays 0 and the stored coefficient. *)
Lemma coarse_stage_started self n t port sfp w slave more instr beta :
  devices_of self w = slave :: more ->
  instr_of self = Some instr ->
  Qeq_bool (cfg_delta1 (cfg_dict w)) 0 = false ->
  dict_get (cfg_fiber_asymmetry (cfg_dict w)) (format_key sfp port) = Some beta ->
  extends
    (emit (EvWriteSfp slave (if (sfp =? "blue")%string then AXGE_1254 else AXGE_3454)
             port (Some (0, 0, beta)))
       (emit (EvEraseSfp slave) w))
    (world_of (coarse_stage self n t port sfp w)).
Proof.
  intros Hd Hi Hq Hb. unfold coarse_stage. rewrite Hd, Hi, Hq.
  change (List.length (slave :: more) <? 1)%nat with false. cbv iota.
  unfold dict_mem. rewrite Hb. cbn [negb]. cbv iota.
  steps.
  erewrite bind_Ret by (unfold lookup; simpl; rewrite Hb; reflexivity).
  erewrite bind_Ret by reflexivity.
  match goal with
  | |- extends ?w0 (world_of (?m ?w0)) =>
      cut (respects extends m); [intros H; exact (H w0)|]
  end.
  extends_steps.
Qed.

Lemma respects_extends_refine_stage cs error n t port :
  respects extends (refine_stage cs error n t port).
Proof. unfold refine_stage. cbv zeta. extends_steps. Qed.

(** X19. The estimators compose.  Once [fiber_asymmetry] has returned for
    a port and an SFP colour, [calibrate_device_port] for the same port and
    colour gets past its four checks, in the world left behind, whatever
    its other arguments: it goes on to erase the SFP database of the first
    device and to write it with delays 0 and the coefficient just stored. *)
Theorem asymmetry_enables_calibration :
  forall (self : instance) (n_samples t_samples port : Z) (sfp : string)
         (w w' : world) (error : Q) (n_samples' t_samples' : Z),
    fiber_asymmetry self n_samples t_samples port sfp w = Ret tt w' ->
    exists slave beta later,
      nth_error (devices_of self w') 0 = Some slave
      /\ dict_get (cfg_fiber_asymmetry (cfg_dict w')) (format_key sfp port) = Some beta
      /\ trace (world_of (calibrate_device_port self error n_samples' t_samples'
                            port sfp w'))
         = trace w'
           ++ [EvEraseSfp slave;
               EvWriteSfp slave (if (sfp =? "blue")%string then AXGE_1254 else AXGE_3454)
                 port (Some (0, 0, beta))]
           ++ later.
Proof.
  intros self n t port sfp w w' error n' t' Hr.
  pose proof (respects_keeps_fiber_asymmetry self n t port sfp w) as Hk.
  rewrite Hr in Hk. cbn [world_of] in Hk. destruct Hk as (Hk1 & Hk2 & _).
  pose proof (ensures_fiber_asymmetry self n t port sfp w tt w' Hr) as He.
  cbv beta in He.
  unfold fiber_asymmetry in Hr.
  destruct (Nat.ltb_spec (List.length (devices_of self w)) 2) as [|Hn];
    [discriminate|].
  destruct (instr_of self) as [instr|] eqn:Hi; [|discriminate].
  destruct (Qeq_bool (cfg_delta1 (cfg_dict w)) 0) eqn:Hq; [discriminate|].
  clear Hr.
  assert (Hd : devices_of self w' = devices_of self w).
  { unfold devices_of. destruct (own_devices self); [reflexivity | exact Hk1]. }
  rewrite <- Hd in Hn. rewrite <- Hk2 in Hq.
  destruct (devices_of self w') as [|slave more] eqn:Hd'; [simpl in Hn; lia|].
  unfold dict_mem in He.
  destruct (dict_get (cfg_fiber_asymmetry (cfg_dict w')) (format_key sfp port))
    as [beta|] eqn:Hb; [|discriminate].
  exists slave, beta.
  assert (Hx : extends
                 (emit (EvWriteSfp slave
                          (if (sfp =? "blue")%string then AXGE_1254 else AXGE_3454)
                          port (Some (0, 0, beta)))
                    (emit (EvEraseSfp slave) w'))
                 (world_of (calibrate_device_port self error n' t' port sfp w'))).
  { pose proof (coarse_stage_started self n' t' port sfp w' slave more instr beta
                  Hd' Hi Hq Hb) as Hc.
    unfold calibrate_device_port, bind.
    destruct (coarse_stage self n' t' port sfp w') as [cs w1|e w1|w1];
      cbn [world_of] in Hc |- *; try exact Hc.
    eapply extends_trans; [exact Hc|].
    apply respects_extends_refine_stage. }
  destruct Hx as [later Hx]. exists later.
  split; [reflexivity|]. split; [reflexivity|].
  rewrite Hx. simpl trace. rewrite <- !app_assoc. reflexivity.
Qed.

Lemma asymmetry_enables_calibration_witness :
  exists w',
    fiber_asymmetry operator 10 5 1 "blue"
      (measuring [1 # 10000000000; -3 # 10000000000]) = Ret tt w'
    /\ exists slave beta later,
      nth_error (devices_of operator w') 0 = Some slave
      /\ dict_get (cfg_fiber_asymmetry (cfg_dict w')) (format_key "blue" 1) = Some beta
      /\ trace (world_of (calibrate_device_port operator (50 # 1) 2 5 1 "blue" w'))
         = trace w'
           ++ [EvEraseSfp slave; EvWriteSfp slave AXGE_1254 1 (Some (0, 0, beta))]
           ++ later.
Proof.
  eexists. split; [vm_compute; reflexivity|].
  apply (asymmetry_enables_calibration operator 10 5 1 "blue"
           (measuring [1 # 10000000000; -3 # 10000000000])).
  vm_compute. reflexivity.
Defined.
